(** * open-hypertrophy: the request handlers of [backend/core/api.py]

    A shallow embedding of the handlers over an explicit relational store
    and an explicit session.  Tables are finite maps from primary key to
    row, the many-to-many table between users and permissions is a finite
    set of pairs, and a handler is a computation in a state-and-exception
    monad whose state is the store together with the session of the
    request. *)

From stdpp Require Import gmap strings list sorting.
From Stdlib Require Import ZArith.

Local Open Scope string_scope.
Local Open Scope Z_scope.

(** ** Rows *)

Record User := mkUser {
  username : string;
  password : string;          (* the encoded hash, never the raw password *)
  first_name : string;
  last_name : string;
  is_staff : bool;
  is_active : bool
}.

Record Permission := mkPermission { codename : string }.

Record Exercise := mkExercise { name : string; created_by : nat }.

(** A date is its proleptic ordinal, so that chronological order is [≤];
    repetitions and weight are carried verbatim from the payload. *)
Record Lift := mkLift {
  user : nat;
  date : Z;
  exercise : nat;
  repetitions : Z;
  weight : Z
}.

Global Instance User_eq_dec : EqDecision User.
Proof. solve_decision. Defined.
Global Instance Lift_eq_dec : EqDecision Lift.
Proof. solve_decision. Defined.

(** ** Request payloads (the schemas of [core.schema]) *)

Module CreateLiftSchema.
Record t := mk { exercise_id : nat; date : Z; repetitions : Z; weight : Z }.
End CreateLiftSchema.

Module CreateUser.
Record t := mk { username : string; password : string;
                 first_name : string; last_name : string }.
End CreateUser.

Module Login.
Record t := mk { username : string; password : string }.
End Login.

Module ChangePassword.
Record t := mk { current_password : string; new_password : string }.
End ChangePassword.

(** ** The store *)

Record Store := mkStore {
  users : gmap nat User;
  permissions : gmap nat Permission;
  user_permissions : gset (nat * nat);      (* (user id, permission id) *)
  exercises : gmap nat Exercise;
  lifts : gmap nat Lift
}.

Definition set_users (f : gmap nat User → gmap nat User) (s : Store) : Store :=
  mkStore (f (users s)) (permissions s) (user_permissions s) (exercises s) (lifts s).

Definition set_user_permissions (f : gset (nat * nat) → gset (nat * nat)) (s : Store) : Store :=
  mkStore (users s) (permissions s) (f (user_permissions s)) (exercises s) (lifts s).

Definition set_lifts (f : gmap nat Lift → gmap nat Lift) (s : Store) : Store :=
  mkStore (users s) (permissions s) (user_permissions s) (exercises s) (f (lifts s)).

(** ** The session of a request

    Of the session dictionary only the two keys written by the
    authentication framework are kept: the primary key of the logged-in
    user and the hash derived from that user's password hash. *)

Record Session := mkSession {
  auth_user_id : option nat;
  auth_user_hash : option string
}.

Definition flush : Session := mkSession None None.

Record World := mkWorld { store : Store; session : Session }.

Definition set_store (f : Store → Store) (w : World) : World :=
  mkWorld (f (store w)) (session w).

Definition set_session (f : Session → Session) (w : World) : World :=
  mkWorld (store w) (f (session w)).

(** ** Exceptions and responses *)

Inductive Model := PermissionModel | ExerciseModel | UserModel.

Inductive exn :=
  | IntegrityError (msg : string)
  | ValueError (msg : string)
  | ValidationError (msgs : list string)
  | DoesNotExist (model : Model)
  | MultipleObjectsReturned (model : Model).

Inductive Body :=
  | Detail (detail : string)
  | LiftRows (rows : list (nat * Lift))
  | Profile (u : User).

Inductive response :=
  | Response (status : nat) (body : Body)
  | Unhandled (e : exn).

(** ** The handler monad *)

Definition M (A : Type) : Type := World → (exn + A) * World.

Definition ret {A} (a : A) : M A := λ w, (inr a, w).

Definition raise {A} (e : exn) : M A := λ w, (inl e, w).

Definition bind {A B} (m : M A) (k : A → M B) : M B :=
  λ w, match m w with
       | (inr a, w') => k a w'
       | (inl e, w') => (inl e, w')
       end.

Definition gets {A} (f : World → A) : M A := λ w, (inr (f w), w).

Definition modify (f : World → World) : M unit := λ w, (inr tt, f w).

Global Instance M_ret : MRet M := @ret.
Global Instance M_bind : MBind M := λ A B k m, bind m k.

(** [with transaction.atomic(): body].  When the body raises, the store is
    put back to what it was on entry and the exception goes on; the
    session is no part of the database and is left as the body left it. *)
Definition atomic {A} (body : M A) : M A :=
  λ w, match body w with
       | (inr a, w') => (inr a, w')
       | (inl e, w') => (inl e, mkWorld (store w) (session w'))
       end.

(** [try: body except Exercise.DoesNotExist: handler]. *)
Definition try_except_Exercise_DoesNotExist {A} (body : M A) (handler : M A) : M A :=
  λ w, match body w with
       | (inl (DoesNotExist ExerciseModel), w') => handler w'
       | r => r
       end.

(** ** The framework's collaborators

    The password hasher, the derivation of the session hash from a stored
    password hash and the password-strength validators are outside this
    repository; the handlers are verified against any implementation. *)

Class Auth := {
  (* the encoded hash stored for a raw password *)
  make_password : string → string;
  (* does the raw password match the encoded hash? *)
  verify_password : string → string → bool;
  (* [user.get_session_auth_hash()], a keyed digest of the stored hash *)
  salted_hmac : string → string;
  (* the messages of the validators that reject a raw password *)
  password_validators : string → list string
}.

(** [" ".join(msgs)] *)
Fixpoint join (sep : string) (msgs : list string) : string :=
  match msgs with
  | [] => ""
  | [m] => m
  | m :: rest => m +:+ sep +:+ join sep rest
  end.

(** The process-wide exception handlers registered on the API object;
    an exception of any other class leaves the API unhandled. *)
Definition exception_handler (e : exn) : response :=
  match e with
  | IntegrityError msg => Response 400 (Detail msg)
  | ValueError msg => Response 400 (Detail msg)
  | ValidationError msgs => Response 400 (Detail (join " " msgs))
  | _ => Unhandled e
  end.

(** What the API answers for a handler run on a world. *)
Definition respond (h : M (nat * Body)) (w : World) : response * World :=
  match h w with
  | (inr (status, body), w') => (Response status body, w')
  | (inl e, w') => (exception_handler e, w')
  end.

Section Handlers.
Context `{Auth}.

(** *** Queries of the object-relational layer *)

(** [Model.objects.get(...)] on the rows selected by the lookup. *)
Definition objects_get {R} (model : Model) (rows : list (nat * R)) : M (nat * R) :=
  match rows with
  | [] => raise (DoesNotExist model)
  | [row] => mret row
  | _ => raise (MultipleObjectsReturned model)
  end.

Definition Users_filter_username (uname : string) (s : Store) : list (nat * User) :=
  filter (λ row, username row.2 = uname) (map_to_list (users s)).

Definition Permission_filter_codename (c : string) (s : Store) : list (nat * Permission) :=
  filter (λ row, codename row.2 = c) (map_to_list (permissions s)).

(** [Permission.objects.get(codename=c)] *)
Definition Permission_get (c : string) : M (nat * Permission) :=
  rows ← gets (λ w, Permission_filter_codename c (store w));
  objects_get PermissionModel rows.

(** [Exercise.objects.get(id=pk)]: the primary key selects at most one row. *)
Definition Exercise_get (pk : nat) : M (nat * Exercise) :=
  row ← gets (λ w, exercises (store w) !! pk);
  objects_get ExerciseModel (match row with Some e => [(pk, e)] | None => [] end).

(** [Model.objects.create(...)] stores the row under an unused primary key. *)
Definition Lift_create (l : Lift) : M nat :=
  pk ← gets (λ w, fresh (dom (lifts (store w))));
  modify (set_store (set_lifts (insert pk l)));;
  mret pk.

(** [get_user_model().objects.create_user(...)]: the manager refuses an empty
    username, the table's uniqueness constraint refuses a stored one, and
    the raw password is stored hashed. *)
Definition User_create_user (staff : bool) (first last uname raw : string) : M (nat * User) :=
  if decide (uname = "") then raise (ValueError "The given username must be set")
  else
    taken ← gets (λ w, Users_filter_username uname (store w));
    match taken with
    | _ :: _ => raise (IntegrityError "UNIQUE constraint failed: auth_user.username")
    | [] =>
        pk ← gets (λ w, fresh (dom (users (store w))));
        let u := mkUser uname (make_password raw) first last staff true in
        modify (set_store (set_users (insert pk u)));;
        mret (pk, u)
    end.

(** [u.user_permissions.add(p)] writes the pair to the many-to-many table. *)
Definition user_permissions_add (u : nat * User) (p : nat * Permission) : M unit :=
  modify (set_store (set_user_permissions (λ t, {[ (u.1, p.1) ]} ∪ t))).

(** [u.save()] writes the row of the instance back under its primary key. *)
Definition User_save (u : nat * User) : M unit :=
  modify (set_store (set_users (insert u.1 u.2))).

(** *** The session framework *)

(** [user.get_session_auth_hash()] *)
Definition get_session_auth_hash (u : User) : string := salted_hmac (password u).

(** The model backend's [get_user(pk)]: the stored user, if active. *)
Definition backend_get_user (pk : nat) (s : Store) : option User :=
  match users s !! pk with
  | Some u => if is_active u then Some u else None
  | None => None
  end.

Definition session_verified (ss : Session) (u : User) : bool :=
  bool_decide (auth_user_hash ss = Some (get_session_auth_hash u)).

(** [get_user(request)], which [request.user] evaluates: the user the
    session names, when the backend returns it and the session's hash is
    the one derived from the stored password hash.  A session whose hash
    does not verify is flushed, and the request is anonymous ([None]). *)
Definition get_user : M (option (nat * User)) :=
  ss ← gets session;
  match auth_user_id ss with
  | None => mret None
  | Some pk =>
      found ← gets (λ w, backend_get_user pk (store w));
      match found with
      | None => mret None
      | Some u =>
          if session_verified ss u then mret (Some (pk, u))
          else modify (set_session (λ _, flush));; mret None
      end
  end.

(** Who a request made in world [w] is. *)
Definition request_user (w : World) : option (nat * User) :=
  match (get_user w).1 with
  | inr u => u
  | inl _ => None
  end.

(** [authenticate(request, username=..., password=...)] *)
Definition authenticate (uname raw : string) : M (option (nat * User)) :=
  rows ← gets (λ w, Users_filter_username uname (store w));
  match rows with
  | [] => mret None
  | [(pk, u)] =>
      if verify_password raw (password u) && is_active u
      then mret (Some (pk, u)) else mret None
  | _ => raise (MultipleObjectsReturned UserModel)
  end.

(** [django_login(request, user)] *)
Definition django_login (u : nat * User) : M unit :=
  modify (set_session (λ _, mkSession (Some u.1) (Some (get_session_auth_hash u.2)))).

(** [django_logout(request)] *)
Definition django_logout : M unit :=
  modify (set_session (λ _, flush)).

(** [update_session_auth_hash(request, user)] *)
Definition update_session_auth_hash (u : nat * User) : M unit :=
  modify (set_session (λ ss, mkSession (auth_user_id ss) (Some (get_session_auth_hash u.2)))).

(** [user.set_password(raw)] on the instance held by the handler. *)
Definition set_password (u : User) (raw : string) : User :=
  mkUser (username u) (make_password raw) (first_name u) (last_name u)
    (is_staff u) (is_active u).

(** [validate_password(raw)] *)
Definition validate_password (raw : string) : M unit :=
  match password_validators raw with
  | [] => mret tt
  | msgs => raise (ValidationError msgs)
  end.

(** [auth=session_auth]: the handler runs for an authenticated request and
    is given its user; any other request is answered 401 and the handler
    does not run. *)
Definition session_auth (h : nat * User → M (nat * Body)) : M (nat * Body) :=
  u ← get_user;
  match u with
  | Some u => h u
  | None => mret (401%nat, Detail "Unauthorized")
  end.

(** *** The handlers of [api.py] *)

Definition date_le (a b : nat * Lift) : Prop := date a.2 ≤ date b.2.

Global Instance date_le_dec a b : Decision (date_le a b).
Proof. unfold date_le. apply _. Defined.

(** [Lift.objects.filter(user=pk)] *)
Definition Lift_filter_user (pk : nat) (s : Store) : list (nat * Lift) :=
  filter (λ row, user row.2 = pk) (map_to_list (lifts s)).

(** [queryset.order_by("date")]: ascending in the date. *)
Definition order_by_date (rows : list (nat * Lift)) : list (nat * Lift) :=
  merge_sort date_le rows.

Definition list_lifts (u : nat * User) : M (nat * Body) :=
  rows ← gets (λ w, order_by_date (Lift_filter_user u.1 (store w)));
  mret (200%nat, LiftRows rows).

Definition create_lift (payload : CreateLiftSchema.t) (u : nat * User) : M (nat * Body) :=
  try_except_Exercise_DoesNotExist
    (exercise ← Exercise_get (CreateLiftSchema.exercise_id payload);
     Lift_create (mkLift u.1 (CreateLiftSchema.date payload) exercise.1
                    (CreateLiftSchema.repetitions payload)
                    (CreateLiftSchema.weight payload));;
     mret (201%nat, Detail "Lift created successfully."))
    (mret (404%nat, Detail "Exercise not found.")).

(** The body of the [with transaction.atomic()] block of [create_user]. *)
Definition create_user_transaction (payload : CreateUser.t) : M unit :=
  u ← User_create_user true (CreateUser.first_name payload) (CreateUser.last_name payload)
        (CreateUser.username payload) (CreateUser.password payload);
  p ← Permission_get "add_category"; user_permissions_add u p;;
  p ← Permission_get "view_category"; user_permissions_add u p;;
  p ← Permission_get "add_exercise"; user_permissions_add u p;;
  p ← Permission_get "view_exercise"; user_permissions_add u p;;
  p ← Permission_get "add_lift"; user_permissions_add u p;;
  p ← Permission_get "view_lift"; user_permissions_add u p;;
  User_save u.

Definition create_user (payload : CreateUser.t) : M (nat * Body) :=
  taken ← gets (λ w, Users_filter_username (CreateUser.username payload) (store w));
  match taken with
  | _ :: _ => mret (400%nat, Detail "Username is already used.")
  | [] =>
      atomic (create_user_transaction payload);;
      mret (201%nat, Detail "Success.")
  end.

Definition retrieve_current_user (u : nat * User) : M (nat * Body) :=
  mret (200%nat, Profile u.2).

Definition login (payload : Login.t) : M (nat * Body) :=
  u ← authenticate (Login.username payload) (Login.password payload);
  match u with
  | Some u => django_login u;; mret (200%nat, Detail "Success.")
  | None => mret (400%nat, Detail "Invalid credentials.")
  end.

Definition logout : M (nat * Body) :=
  django_logout;;
  mret (200%nat, Detail "Success.").

Definition change_password (payload : ChangePassword.t) (u : nat * User) : M (nat * Body) :=
  if negb (verify_password (ChangePassword.current_password payload) (password u.2))
  then mret (400%nat, Detail "Current password is incorrect.")
  else
    validate_password (ChangePassword.new_password payload);;
    let u' := (u.1, set_password u.2 (ChangePassword.new_password payload)) in
    User_save u';;
    update_session_auth_hash u';;
    mret (200%nat, Detail "Password changed successfully.").

(** *** The endpoints: each handler behind its gate, answered by the API *)

Definition lifts_get : World → response * World :=
  respond (session_auth list_lifts).

Definition lifts_post (payload : CreateLiftSchema.t) : World → response * World :=
  respond (session_auth (create_lift payload)).

Definition users_post (payload : CreateUser.t) : World → response * World :=
  respond (create_user payload).

Definition users_current_get : World → response * World :=
  respond (session_auth retrieve_current_user).

Definition users_login_post (payload : Login.t) : World → response * World :=
  respond (login payload).

Definition users_logout_post : World → response * World :=
  respond logout.

Definition users_change_password_post (payload : ChangePassword.t) : World → response * World :=
  respond (session_auth (change_password payload)).

End Handlers.

(** ** The grants of registration, in a form to reason by induction *)

Section Grants.
Context `{Auth}.

(** The six grants of [create_user], one after the other, then [k]. *)
Fixpoint grant_each (u : nat * User) (cs : list string) (k : M unit) : M unit :=
  match cs with
  | [] => k
  | c :: cs => p ← Permission_get c; user_permissions_add u p;; grant_each u cs k
  end.

(** The primary keys the lookups by codename return, or the exception of
    the first lookup that raises. *)
Fixpoint resolve (cs : list string) (s : Store) : exn + list nat :=
  match cs with
  | [] => inr []
  | c :: cs =>
      match Permission_filter_codename c s with
      | [] => inl (DoesNotExist PermissionModel)
      | [row] =>
          match resolve cs s with
          | inr ps => inr (row.1 :: ps)
          | inl e => inl e
          end
      | _ => inl (MultipleObjectsReturned PermissionModel)
      end
  end.

(** The world with the rows [(u, p)], for [p] in [ps], added. *)
Definition add_rows (pk : nat) (ps : list nat) (w : World) : World :=
  set_store (set_user_permissions (λ t, list_to_set ((λ p, (pk, p)) <$> ps) ∪ t)) w.

(** The instance [create_user] builds from the payload. *)
Definition new_user (payload : CreateUser.t) : User :=
  mkUser (CreateUser.username payload) (make_password (CreateUser.password payload))
    (CreateUser.first_name payload) (CreateUser.last_name payload) true true.

(** The store with the user [u] under [pk] and the rows [(pk, p)], for [p]
    in [ps], added. *)
Definition register (pk : nat) (u : User) (ps : list nat) (s : Store) : Store :=
  mkStore (<[pk := u]> (users s)) (permissions s)
    (list_to_set ((λ p, (pk, p)) <$> ps) ∪ user_permissions s)
    (exercises s) (lifts s).

End Grants.

(** ** What the store is expected to satisfy, and what a user holds *)

(** The six permissions granted at registration. *)
Definition registration_codenames : list string :=
  ["add_category"; "view_category"; "add_exercise"; "view_exercise";
   "add_lift"; "view_lift"].

(** The permissions a user holds: the permission ends of the user's rows
    of the many-to-many table. *)
Definition permissions_of (pk : nat) (s : Store) : gset nat :=
  set_map snd (filter (λ row : nat * nat, row.1 = pk) (user_permissions s)).

(** The user holds a stored permission of that codename. *)
Definition holds_codename (s : Store) (pk : nat) (c : string) : Prop :=
  ∃ pid p, pid ∈ permissions_of pk s ∧ permissions s !! pid = Some p ∧ codename p = c.

Definition fully_granted (s : Store) (pk : nat) : Prop :=
  Forall (holds_codename s pk) registration_codenames.

(** The foreign key of the many-to-many table into the user table. *)
Definition referential_integrity (s : Store) : Prop :=
  set_Forall (λ row : nat * nat, is_Some (users s !! row.1)) (user_permissions s).

(** The uniqueness constraint on the username column. *)
Definition unique_usernames (s : Store) : Prop :=
  NoDup ((λ row : nat * User, username row.2) <$> map_to_list (users s)).

(** ** A concrete deployment, on which the statements below are run *)

Module Deployment.

(** A stand-in for the hasher, the session digest and the validators. *)
Definition auth : Auth := {|
  make_password raw := "pbkdf2$" +:+ raw;
  verify_password raw enc := bool_decide (enc = "pbkdf2$" +:+ raw);
  salted_hmac enc := "hmac$" +:+ enc;
  password_validators raw :=
    if decide (String.length raw < 8)%nat
    then ["This password is too short."; "It must contain at least 8 characters."]
    else []
|}.

(** The permission table as the migrations of the framework leave it. *)
Definition permission_table : gmap nat Permission :=
  list_to_map
    [(1%nat, mkPermission "add_category"); (2%nat, mkPermission "view_category");
     (3%nat, mkPermission "add_exercise"); (4%nat, mkPermission "view_exercise");
     (5%nat, mkPermission "add_lift"); (6%nat, mkPermission "view_lift");
     (7%nat, mkPermission "delete_lift")].

Definition ann : User :=
  mkUser "ann" "pbkdf2$correct horse" "Ann" "Lee" true true.
Definition bob : User :=
  mkUser "bob" "pbkdf2$battery staple" "Bob" "Ray" true true.

Definition six (pk : nat) : gset (nat * nat) :=
  list_to_set ((λ p, (pk, p)) <$> [1; 2; 3; 4; 5; 6]%nat).

Definition gym : Store := {|
  users := <[1%nat := ann]> (<[2%nat := bob]> ∅);
  permissions := permission_table;
  user_permissions := six 1 ∪ six 2;
  exercises := <[1%nat := mkExercise "squat" 1]> ∅;
  lifts := <[1%nat := mkLift 1 739000 1 5 100]>
           (<[2%nat := mkLift 2 739001 1 5 80]>
           (<[3%nat := mkLift 1 739002 1 3 110]> ∅))
|}.

(** Nobody is logged in. *)
Definition anonymous : World := mkWorld gym flush.

(** Ann is logged in. *)
Definition ann_session : World :=
  mkWorld gym (mkSession (Some 1%nat) (Some "hmac$pbkdf2$correct horse")).

(** The same store before the permission [view_lift] was migrated in. *)
Definition half_migrated : World :=
  mkWorld (mkStore (users gym) (delete 6%nat permission_table) (user_permissions gym)
             (exercises gym) (lifts gym)) flush.

(** Requests. *)
Definition cat : CreateUser.t := CreateUser.mk "cat" "tr0ub4dor&3" "Cat" "Orr".
Definition ann_again : CreateUser.t := CreateUser.mk "ann" "hunter2hunter2" "Anna" "Lee".
Definition wrong_login : Login.t := Login.mk "ann" "incorrect horse".
Definition strong_change : ChangePassword.t :=
  ChangePassword.mk "correct horse" "battery staple 42".
Definition weak_change : ChangePassword.t := ChangePassword.mk "correct horse" "horse".
Definition lift_of_unknown_exercise : CreateLiftSchema.t :=
  CreateLiftSchema.mk 9 739003 8 60.
Definition lift_of_squat : CreateLiftSchema.t :=
  CreateLiftSchema.mk 1 739003 8 60.

End Deployment.

(** ** The rest of the API

    The handlers no statement above needed: the creation of exercises, the
    two listings ordered by creation time, and the router that sends a
    request to its handler. *)

Module CreateExerciseSchema.
Record t := mk { name : string }.
End CreateExerciseSchema.

(** The rows of the category table.  No handler writes them. *)
Module Category.
Record t := mk { name : string; date_created : Z }.
End Category.

Definition set_exercises (f : gmap nat Exercise → gmap nat Exercise) (s : Store) : Store :=
  mkStore (users s) (permissions s) (user_permissions s) (f (exercises s)) (lifts s).

(** [queryset.order_by("-key")]: descending in the key. *)
Definition key_ge {R} (key : R → Z) (a b : R) : Prop := key b ≤ key a.

Global Instance key_ge_dec {R} (key : R → Z) a b : Decision (key_ge key a b).
Proof. unfold key_ge. apply _. Defined.

Definition order_by_desc {R} (key : R → Z) (rows : list R) : list R :=
  merge_sort (key_ge key) rows.

(** [return 200, Category.objects.all().order_by("-date_created")], on the
    category table of the store. *)
Definition list_categories (Category_objects : gmap nat Category.t)
    (u : nat * User) : nat * list (nat * Category.t) :=
  (200%nat,
   order_by_desc (λ row : nat * Category.t, Category.date_created row.2)
     (map_to_list Category_objects)).

(** [return 200, Exercise.objects.all().order_by("-date_created")].  The
    column [date_created] is declared with the model, which is no part of
    [api.py]; it is taken as a function of the row. *)
Definition list_exercises (date_created : nat * Exercise → Z) (s : Store)
    (u : nat * User) : nat * list (nat * Exercise) :=
  (200%nat, order_by_desc date_created (map_to_list (exercises s))).

Section MoreHandlers.
Context `{Auth}.

(** [Exercise.objects.create(...)] stores the row under an unused primary key. *)
Definition Exercise_create (e : Exercise) : M nat :=
  pk ← gets (λ w, fresh (dom (exercises (store w))));
  modify (set_store (set_exercises (insert pk e)));;
  mret pk.

Definition create_exercise (payload : CreateExerciseSchema.t) (u : nat * User) : M (nat * Body) :=
  Exercise_create (mkExercise (CreateExerciseSchema.name payload) u.1);;
  mret (201%nat, Detail "Exercise created successfully.").

Definition exercises_post (payload : CreateExerciseSchema.t) : World → response * World :=
  respond (session_auth (create_exercise payload)).

End MoreHandlers.

Section Written.
Context `{Auth}.


End Written.

(** The requests the routers accept, by method and path (the two listings
    above apart), and the endpoint each is sent to. *)
Inductive Request :=
  | POST_exercises (payload : CreateExerciseSchema.t)
  | GET_lifts
  | POST_lifts (payload : CreateLiftSchema.t)
  | POST_users (payload : CreateUser.t)
  | GET_users_current
  | POST_users_login (payload : Login.t)
  | POST_users_logout
  | POST_users_change_password (payload : ChangePassword.t).

Definition api `{Auth} (r : Request) : World → response * World :=
  match r with
  | POST_exercises payload => exercises_post payload
  | GET_lifts => lifts_get
  | POST_lifts payload => lifts_post payload
  | POST_users payload => users_post payload
  | GET_users_current => users_current_get
  | POST_users_login payload => users_login_post payload
  | POST_users_logout => users_logout_post
  | POST_users_change_password payload => users_change_password_post payload
  end.

(** The endpoints declared with [auth=session_auth]. *)
Definition gated (r : Request) : bool :=
  match r with
  | POST_exercises _ | GET_lifts | POST_lifts _ | GET_users_current
  | POST_users_change_password _ => true
  | POST_users _ | POST_users_login _ | POST_users_logout => false
  end.



(** The world after a sequence of requests on one session. *)
Definition serve `{Auth} (rs : list Request) (w : World) : World :=
  foldl (λ w r, (api r w).2) w rs.




Module Fixtures.

Definition category_table : gmap nat Category.t :=
  <[1%nat := Category.mk "legs" 100]>
  (<[2%nat := Category.mk "push" 300]>
  (<[3%nat := Category.mk "pull" 200]> ∅)).

Definition bench : CreateExerciseSchema.t := CreateExerciseSchema.mk "bench press".
Definition squat_again : CreateExerciseSchema.t := CreateExerciseSchema.mk "squat".

(** Bob is logged in. *)
Definition bob_session : World :=
  mkWorld Deployment.gym (mkSession (Some 2%nat) (Some "hmac$pbkdf2$battery staple")).

Definition cat_login : Login.t := Login.mk "cat" "tr0ub4dor&3".
Definition ann_new_login : Login.t := Login.mk "ann" "battery staple 42".
Definition wrong_change : ChangePassword.t := ChangePassword.mk "incorrect horse" "horse".
Definition lift_of_next_exercise : CreateLiftSchema.t := CreateLiftSchema.mk 2 739004 10 40.

(** A visit: register, log in, create an exercise, log a lift of it, list. *)
Definition visit : list Request :=
  [POST_users Deployment.cat; POST_users_login cat_login; POST_exercises bench;
   POST_lifts lift_of_next_exercise; GET_lifts].

End Fixtures.

(** * Properties *)

Ltac unfold_M :=
  unfold mbind, M_bind, bind, mret, M_ret, ret, gets, modify, raise in *.

Section Properties.
Context `{Auth}.

(** ** The gate *)

Lemma get_user_Some w u :
  request_user w = Some u → get_user w = (inr (Some u), w).
Proof.
  unfold request_user, get_user. unfold_M. simpl.
  destruct (auth_user_id (session w)) as [pk|]; simpl; [|done].
  destruct (backend_get_user pk (store w)) as [u'|]; simpl; [|done].
  destruct (session_verified (session w) u'); simpl; [|done].
  by intros [= <-].
Qed.

Lemma get_user_None w :
  request_user w = None → ∃ w', get_user w = (inr None, w') ∧ store w' = store w.
Proof.
  unfold request_user, get_user. unfold_M. simpl.
  destruct (auth_user_id (session w)) as [pk|]; simpl; [|by eauto].
  destruct (backend_get_user pk (store w)) as [u'|]; simpl; [|by eauto].
  destruct (session_verified (session w) u'); simpl; [done|by eauto].
Qed.

Lemma session_auth_authenticated h w u :
  request_user w = Some u → session_auth h w = h u w.
Proof.
  intros Hu. unfold session_auth. unfold_M. by rewrite (get_user_Some _ _ Hu).
Qed.

Lemma session_auth_anonymous h w :
  request_user w = None →
  ∃ w', respond (session_auth h) w = (Response 401 (Detail "Unauthorized"), w')
        ∧ store w' = store w.
Proof.
  intros Hu. destruct (get_user_None _ Hu) as (w' & Hg & Hs).
  exists w'. unfold respond, session_auth. unfold_M. by rewrite Hg.
Qed.

(** Who is authenticated is stored, active, and named by the session. *)
Lemma request_user_inv w pk u :
  request_user w = Some (pk, u) →
  auth_user_id (session w) = Some pk ∧ users (store w) !! pk = Some u
  ∧ is_active u = true
  ∧ auth_user_hash (session w) = Some (get_session_auth_hash u).
Proof.
  unfold request_user, get_user, backend_get_user. unfold_M. simpl.
  destruct (auth_user_id (session w)) as [pk'|]; simpl; [|done].
  destruct (users (store w) !! pk') as [u'|] eqn:Hu; simpl; [|done].
  destruct (is_active u') eqn:Ha; simpl; [|done].
  unfold session_verified. case_bool_decide; simpl; [|done].
  by intros [= <- <-].
Qed.

Lemma request_user_intro w pk u :
  auth_user_id (session w) = Some pk → users (store w) !! pk = Some u →
  is_active u = true →
  auth_user_hash (session w) = Some (get_session_auth_hash u) →
  request_user w = Some (pk, u).
Proof.
  intros Hid Hu Ha Hh.
  unfold request_user, get_user, backend_get_user. unfold_M. simpl.
  rewrite Hid. simpl. rewrite Hu, Ha. simpl.
  unfold session_verified. by rewrite bool_decide_eq_true_2.
Qed.

(** ** Listing lifts *)

Global Instance date_le_total : Total date_le.
Proof. intros a b. unfold date_le. lia. Qed.

Global Instance date_le_trans : Transitive date_le.
Proof. intros a b c. unfold date_le. lia. Qed.

Lemma list_lifts_run u w :
  list_lifts u w
  = (inr (200%nat, LiftRows (order_by_date (Lift_filter_user u.1 (store w)))), w).
Proof. reflexivity. Qed.

Lemma order_by_date_Permutation rows : order_by_date rows ≡ₚ rows.
Proof. apply merge_sort_Permutation. Qed.

Lemma order_by_date_ascending rows : StronglySorted date_le (order_by_date rows).
Proof. apply StronglySorted_merge_sort; apply _. Qed.

Lemma Lift_filter_user_spec pk s row :
  row ∈ Lift_filter_user pk s ↔ lifts s !! row.1 = Some row.2 ∧ user row.2 = pk.
Proof.
  unfold Lift_filter_user. rewrite list_elem_of_filter.
  destruct row as [k l]. rewrite elem_of_map_to_list. simpl. tauto.
Qed.

Lemma listed_lift_owner pk s :
  Forall (λ row, user row.2 = pk) (order_by_date (Lift_filter_user pk s)).
Proof.
  rewrite Forall_forall. intros row Hrow.
  rewrite order_by_date_Permutation in Hrow.
  by apply Lift_filter_user_spec in Hrow as [_ ?].
Qed.

(** What the listing does.  For an authenticated user it answers 200 with
    exactly the stored lifts of that user (each once), in ascending order
    of date: the oldest lift comes first. *)
Theorem list_lifts_ascending_by_date (w : World) (u : nat * User) :
  request_user w = Some u →
  ∃ rows,
    lifts_get w = (Response 200 (LiftRows rows), w)
    ∧ rows ≡ₚ Lift_filter_user u.1 (store w)
    ∧ StronglySorted date_le rows.
Proof.
  intros Hu. exists (order_by_date (Lift_filter_user u.1 (store w))).
  split; [|split].
  - unfold lifts_get, respond.
    by rewrite (session_auth_authenticated _ _ _ Hu), list_lifts_run.
  - apply order_by_date_Permutation.
  - apply order_by_date_ascending.
Qed.

(** C8.  For distinct users A and B, the listing answered to A holds only
    lifts whose owning user is A, and so none owned by B. *)
Theorem list_lifts_only_own (w : World) (A B : nat * User) :
  A.1 ≠ B.1 →
  request_user w = Some A →
  ∃ rows,
    lifts_get w = (Response 200 (LiftRows rows), w)
    ∧ Forall (λ row, user row.2 = A.1) rows
    ∧ Forall (λ row, user row.2 ≠ B.1) rows.
Proof.
  intros HAB Hu. exists (order_by_date (Lift_filter_user A.1 (store w))).
  split; [|split].
  - unfold lifts_get, respond.
    by rewrite (session_auth_authenticated _ _ _ Hu), list_lifts_run.
  - apply listed_lift_owner.
  - eapply Forall_impl; [apply listed_lift_owner|]. simpl. congruence.
Qed.

(** ** Creating a lift *)

Lemma Lift_create_fresh w : lifts (store w) !! fresh (dom (lifts (store w))) = None.
Proof. apply not_elem_of_dom, is_fresh. Qed.

Lemma create_lift_missing payload u w :
  exercises (store w) !! CreateLiftSchema.exercise_id payload = None →
  create_lift payload u w = (inr (404%nat, Detail "Exercise not found."), w).
Proof.
  intros He. unfold create_lift, try_except_Exercise_DoesNotExist, Exercise_get.
  unfold_M. by rewrite He.
Qed.

Lemma create_lift_found payload u w e :
  exercises (store w) !! CreateLiftSchema.exercise_id payload = Some e →
  create_lift payload u w
  = (inr (201%nat, Detail "Lift created successfully."),
     set_store (set_lifts (insert (fresh (dom (lifts (store w))))
       (mkLift u.1 (CreateLiftSchema.date payload) (CreateLiftSchema.exercise_id payload)
          (CreateLiftSchema.repetitions payload) (CreateLiftSchema.weight payload)))) w).
Proof.
  intros He. unfold create_lift, try_except_Exercise_DoesNotExist, Exercise_get, Lift_create.
  unfold_M. by rewrite He.
Qed.

(** C5.  For an authenticated requester: when [exercise_id] names no stored
    exercise the answer is 404 "Exercise not found." and the world, so the
    lift table, is as before; otherwise the answer is 201 and the only
    change is one new lift row, under a primary key that was unused, owned
    by the requester and carrying the payload. *)
Theorem create_lift_exercise_lookup (w : World) (u : nat * User) (payload : CreateLiftSchema.t) :
  request_user w = Some u →
  match exercises (store w) !! CreateLiftSchema.exercise_id payload with
  | None =>
      lifts_post payload w = (Response 404 (Detail "Exercise not found."), w)
  | Some _ =>
      let pk := fresh (dom (lifts (store w))) in
      let row := mkLift u.1 (CreateLiftSchema.date payload)
                   (CreateLiftSchema.exercise_id payload)
                   (CreateLiftSchema.repetitions payload)
                   (CreateLiftSchema.weight payload) in
      lifts (store w) !! pk = None
      ∧ lifts_post payload w
        = (Response 201 (Detail "Lift created successfully."),
           set_store (set_lifts (insert pk row)) w)
  end.
Proof.
  intros Hu. unfold lifts_post, respond.
  rewrite (session_auth_authenticated _ _ _ Hu).
  destruct (exercises (store w) !! CreateLiftSchema.exercise_id payload) as [e|] eqn:He.
  - split; [apply Lift_create_fresh|]. by rewrite (create_lift_found _ _ _ _ He).
  - by rewrite (create_lift_missing _ _ _ He).
Qed.

(** ** Logging out *)

(** C9.  On every world, whatever its session, logging out answers 200
    "Success." and leaves the flushed session and the same store; the
    request is anonymous afterwards, and logging out of the resulting
    world gives the same answer and the same world again. *)
Theorem logout_idempotent (w : World) :
  users_logout_post w = (Response 200 (Detail "Success."), mkWorld (store w) flush)
  ∧ request_user (users_logout_post w).2 = None
  ∧ users_logout_post (users_logout_post w).2 = users_logout_post w.
Proof. done. Qed.

(** ** Logging in *)

Lemma login_run_None payload w :
  authenticate (Login.username payload) (Login.password payload) w = (inr None, w) →
  login payload w = (inr (400%nat, Detail "Invalid credentials."), w).
Proof. intros Ha. unfold login. unfold_M. by rewrite Ha. Qed.

Lemma authenticate_world uname raw w :
  (authenticate uname raw w).2 = w.
Proof.
  unfold authenticate. unfold_M.
  destruct (Users_filter_username uname (store w)) as [|[pk u] [|]]; try done.
  by destruct (verify_password raw (password u) && is_active u).
Qed.

(** The credentials of a stored user with another password do not verify. *)
Lemma authenticate_wrong_password uname raw w pk u :
  Users_filter_username uname (store w) = [(pk, u)] →
  verify_password raw (password u) = false →
  authenticate uname raw w = (inr None, w).
Proof.
  intros Hrows Hv. unfold authenticate. unfold_M. by rewrite Hrows, Hv.
Qed.

(** Nor do credentials whose username is not stored. *)
Lemma authenticate_unknown_username uname raw w :
  Users_filter_username uname (store w) = [] →
  authenticate uname raw w = (inr None, w).
Proof. intros Hrows. unfold authenticate. unfold_M. by rewrite Hrows. Qed.

(** C6.  When the credentials of a login request do not verify, the answer
    is 400 "Invalid credentials." and the world, so the session, is as
    before; on an anonymous session the current-user request that follows
    is answered 401. *)
Theorem login_invalid_credentials (w : World) (payload : Login.t) :
  (authenticate (Login.username payload) (Login.password payload) w).1 = inr None →
  auth_user_id (session w) = None →
  users_login_post payload w = (Response 400 (Detail "Invalid credentials."), w)
  ∧ users_current_get (users_login_post payload w).2
    = (Response 401 (Detail "Unauthorized"), w).
Proof.
  intros Hfail Hanon.
  assert (authenticate (Login.username payload) (Login.password payload) w = (inr None, w)) as Ha.
  { rewrite <-(authenticate_world (Login.username payload) (Login.password payload) w) at 2.
    rewrite <-Hfail. by destruct (authenticate _ _ w). }
  assert (users_login_post payload w = (Response 400 (Detail "Invalid credentials."), w)) as ->.
  { unfold users_login_post, respond. by rewrite (login_run_None _ _ Ha). }
  split; [done|]. simpl.
  unfold users_current_get, respond, session_auth, get_user. unfold_M. simpl.
  by rewrite Hanon.
Qed.

(** ** Changing the password *)

Lemma change_password_success payload u w :
  verify_password (ChangePassword.current_password payload) (password u.2) = true →
  password_validators (ChangePassword.new_password payload) = [] →
  change_password payload u w
  = (inr (200%nat, Detail "Password changed successfully."),
     let u' := set_password u.2 (ChangePassword.new_password payload) in
     mkWorld (set_users (insert u.1 u') (store w))
       (mkSession (auth_user_id (session w)) (Some (get_session_auth_hash u')))).
Proof.
  intros Hv Hp. unfold change_password, validate_password. rewrite Hv, Hp. done.
Qed.

Lemma change_password_rejected payload u w :
  verify_password (ChangePassword.current_password payload) (password u.2) = true →
  password_validators (ChangePassword.new_password payload) ≠ [] →
  change_password payload u w
  = (inl (ValidationError (password_validators (ChangePassword.new_password payload))), w).
Proof.
  intros Hv Hp. unfold change_password, validate_password. rewrite Hv. unfold_M. simpl.
  by destruct (password_validators (ChangePassword.new_password payload)).
Qed.

(** C7.  For an authenticated request with the right current password and
    a new password the validators accept, the answer is 200, the stored
    row of the user carries the hash of the new password, and the session
    the request came with, as the handler leaves it, still authenticates
    the same user against the new store. *)
Theorem change_password_keeps_session
    (w : World) (pk : nat) (u : User) (payload : ChangePassword.t) :
  request_user w = Some (pk, u) →
  verify_password (ChangePassword.current_password payload) (password u) = true →
  password_validators (ChangePassword.new_password payload) = [] →
  let u' := set_password u (ChangePassword.new_password payload) in
  let w' := (users_change_password_post payload w).2 in
  (users_change_password_post payload w).1
    = Response 200 (Detail "Password changed successfully.")
  ∧ users (store w') !! pk = Some u'
  ∧ password u' = make_password (ChangePassword.new_password payload)
  ∧ auth_user_id (session w') = auth_user_id (session w)
  ∧ request_user w' = Some (pk, u').
Proof.
  intros Hu Hv Hp u' w'.
  assert (users_change_password_post payload w
          = (Response 200 (Detail "Password changed successfully."),
             mkWorld (set_users (insert pk u') (store w))
               (mkSession (auth_user_id (session w)) (Some (get_session_auth_hash u'))))) as Hrun.
  { unfold users_change_password_post, respond.
    rewrite (session_auth_authenticated _ _ _ Hu).
    by rewrite (change_password_success payload (pk, u) w Hv Hp). }
  subst w'. rewrite Hrun. simpl.
  destruct (request_user_inv _ _ _ Hu) as (Hid & Hrow & Hact & Hhash).
  repeat split.
  - apply lookup_insert_eq.
  - apply request_user_intro; simpl; [done| apply lookup_insert_eq | done | done].
Qed.

(** Without the call to [update_session_auth_hash] the session would be
    lost whenever the digest of the new hash differs from the old one:
    the old session does not authenticate against the new store. *)
Lemma stale_session_rejected (w : World) (pk : nat) (u : User) (raw : string) :
  request_user w = Some (pk, u) →
  salted_hmac (make_password raw) ≠ salted_hmac (password u) →
  request_user (mkWorld (set_users (insert pk (set_password u raw)) (store w)) (session w))
  = None.
Proof.
  intros Hu Hne. destruct (request_user_inv _ _ _ Hu) as (Hid & Hrow & Hact & Hhash).
  unfold request_user, get_user, backend_get_user. unfold_M. simpl.
  rewrite Hid. simpl. rewrite lookup_insert_eq. simpl. rewrite Hact. simpl.
  unfold session_verified. rewrite bool_decide_eq_false_2; [done|].
  rewrite Hhash. unfold get_session_auth_hash. simpl. congruence.
Qed.

(** C10.  For an authenticated request with the right current password and
    a new password the validators reject, the answer is 400 with the
    validators' messages joined by spaces, and the world is as before: the
    stored row of the user, its password hash included, is unchanged. *)
Theorem change_password_weak_unchanged
    (w : World) (pk : nat) (u : User) (payload : ChangePassword.t) :
  request_user w = Some (pk, u) →
  verify_password (ChangePassword.current_password payload) (password u) = true →
  password_validators (ChangePassword.new_password payload) ≠ [] →
  users_change_password_post payload w
  = (Response 400
       (Detail (join " " (password_validators (ChangePassword.new_password payload)))), w)
  ∧ users (store (users_change_password_post payload w).2) !! pk = Some u.
Proof.
  intros Hu Hv Hp.
  assert (users_change_password_post payload w
          = (Response 400
               (Detail (join " " (password_validators (ChangePassword.new_password payload)))),
             w)) as ->.
  { unfold users_change_password_post, respond.
    rewrite (session_auth_authenticated _ _ _ Hu).
    by rewrite (change_password_rejected payload (pk, u) w Hv Hp). }
  split; [done|]. simpl. by destruct (request_user_inv _ _ _ Hu) as (_ & ? & _).
Qed.

(** ** Registration *)

Lemma create_user_transaction_grants payload :
  create_user_transaction payload
  = (u ← User_create_user true (CreateUser.first_name payload) (CreateUser.last_name payload)
          (CreateUser.username payload) (CreateUser.password payload);
     grant_each u registration_codenames (User_save u)).
Proof. reflexivity. Qed.

Lemma Permission_get_run c w :
  Permission_get c w
  = match Permission_filter_codename c (store w) with
    | [] => (inl (DoesNotExist PermissionModel), w)
    | [row] => (inr row, w)
    | _ => (inl (MultipleObjectsReturned PermissionModel), w)
    end.
Proof.
  unfold Permission_get, objects_get. unfold_M.
  by destruct (Permission_filter_codename c (store w)) as [|? [|]].
Qed.

Lemma add_rows_nil pk w : add_rows pk [] w = w.
Proof.
  destruct w as [[] ?]. unfold add_rows, set_store, set_user_permissions. simpl.
  do 2 f_equal. apply (left_id_L ∅ (∪)).
Qed.

Lemma add_rows_cons pk p ps w :
  add_rows pk ps (set_store (set_user_permissions (λ t, {[ (pk, p) ]} ∪ t)) w)
  = add_rows pk (p :: ps) w.
Proof.
  unfold add_rows, set_store, set_user_permissions. simpl.
  do 2 f_equal. rewrite (assoc_L (∪)). f_equal. apply (comm_L (∪)).
Qed.

Lemma grant_each_cons u c cs k w :
  grant_each u (c :: cs) k w
  = match Permission_filter_codename c (store w) with
    | [] => (inl (DoesNotExist PermissionModel), w)
    | [row] =>
        grant_each u cs k (set_store (set_user_permissions (λ t, {[ (u.1, row.1) ]} ∪ t)) w)
    | _ => (inl (MultipleObjectsReturned PermissionModel), w)
    end.
Proof.
  simpl. unfold mbind at 1, M_bind at 1, bind at 1. rewrite Permission_get_run.
  by destruct (Permission_filter_codename c (store w)) as [|row [|]].
Qed.

Lemma resolve_set_user_permissions cs f s :
  resolve cs (set_user_permissions f s) = resolve cs s.
Proof. induction cs as [|c cs IH]; [done|]. simpl. by rewrite IH. Qed.

Lemma grant_each_run u cs k w :
  match resolve cs (store w) with
  | inr ps => grant_each u cs k w = k (add_rows u.1 ps w)
  | inl e => ∃ ps, grant_each u cs k w = (inl e, add_rows u.1 ps w)
  end.
Proof.
  revert w. induction cs as [|c cs IH]; intros w.
  { simpl. by rewrite add_rows_nil. }
  rewrite grant_each_cons. simpl.
  destruct (Permission_filter_codename c (store w)) as [|row [|]] eqn:Hc.
  - exists []. by rewrite add_rows_nil.
  - specialize (IH (set_store (set_user_permissions (λ t, {[ (u.1, row.1) ]} ∪ t)) w)).
    simpl in IH. rewrite resolve_set_user_permissions in IH.
    destruct (resolve cs (store w)) as [e|ps].
    + destruct IH as [ps IH]. exists (row.1 :: ps). by rewrite IH, add_rows_cons.
    + by rewrite IH, add_rows_cons.
  - exists []. by rewrite add_rows_nil.
Qed.

Lemma filter_codename_singleton c s pid p :
  Permission_filter_codename c s = [(pid, p)] →
  permissions s !! pid = Some p ∧ codename p = c
  ∧ ∀ pid' p', permissions s !! pid' = Some p' → codename p' = c → pid' = pid.
Proof.
  intros Hrows.
  assert (∀ row, row ∈ Permission_filter_codename c s
                 ↔ permissions s !! row.1 = Some row.2 ∧ codename row.2 = c) as Hin.
  { intros [k q]. unfold Permission_filter_codename.
    rewrite list_elem_of_filter, elem_of_map_to_list. simpl. tauto. }
  split_and!.
  - apply (Hin (pid, p)). rewrite Hrows. by left.
  - apply (Hin (pid, p)). rewrite Hrows. by left.
  - intros pid' p' Hp Hc. assert ((pid', p') ∈ Permission_filter_codename c s) as Hrow.
    { by apply Hin. }
    rewrite Hrows in Hrow. apply list_elem_of_singleton in Hrow. congruence.
Qed.

(** When every lookup returns, the keys returned are the stored
    permissions whose codename is one of those looked up. *)
Lemma resolve_keys cs s ps :
  resolve cs s = inr ps →
  ∀ pid, pid ∈ ps ↔ ∃ p, permissions s !! pid = Some p ∧ codename p ∈ cs.
Proof.
  revert ps. induction cs as [|c cs IH]; intros ps; simpl.
  { intros [= <-] pid. split; [by intros ?%elem_of_nil|].
    by intros (? & _ & ?%elem_of_nil). }
  destruct (Permission_filter_codename c s) as [|[pid0 p0] [|]] eqn:Hc; try done.
  destruct (resolve cs s) as [|ps'] eqn:Hres; [done|].
  intros [= <-] pid. simpl.
  destruct (filter_codename_singleton _ _ _ _ Hc) as (Hp0 & Hc0 & Huniq).
  rewrite elem_of_cons, (IH ps' eq_refl pid). split.
  - intros [->|(p & Hp & Hin)].
    + exists p0. split; [done|]. rewrite Hc0. by left.
    + exists p. split; [done|]. by right.
  - intros (p & Hp & [Heq|Hin]%elem_of_cons).
    + left. by apply (Huniq pid p).
    + right. eauto.
Qed.

(** And every codename looked up is the codename of one of them. *)
Lemma resolve_covers cs s ps :
  resolve cs s = inr ps →
  Forall (λ c, ∃ pid p, pid ∈ ps ∧ permissions s !! pid = Some p ∧ codename p = c) cs.
Proof.
  revert ps. induction cs as [|c cs IH]; intros ps; simpl; [by constructor|].
  destruct (Permission_filter_codename c s) as [|[pid0 p0] [|]] eqn:Hc; try done.
  destruct (resolve cs s) as [|ps'] eqn:Hres; [done|].
  intros [= <-]. simpl.
  destruct (filter_codename_singleton _ _ _ _ Hc) as (Hp0 & Hc0 & _).
  constructor.
  - exists pid0, p0. split; [by left|done].
  - eapply Forall_impl; [by apply IH|]. simpl.
    intros c' (pid & p & Hin & Hp & Hcn). exists pid, p. split; [by right|done].
Qed.

Lemma User_create_user_run staff first last uname raw w :
  User_create_user staff first last uname raw w
  = if decide (uname = "") then (inl (ValueError "The given username must be set"), w)
    else match Users_filter_username uname (store w) with
         | _ :: _ => (inl (IntegrityError "UNIQUE constraint failed: auth_user.username"), w)
         | [] =>
             let pk := fresh (dom (users (store w))) in
             let u := mkUser uname (make_password raw) first last staff true in
             (inr (pk, u), set_store (set_users (insert pk u)) w)
         end.
Proof.
  unfold User_create_user. destruct (decide (uname = "")); [done|].
  unfold_M. by destruct (Users_filter_username uname (store w)).
Qed.

Lemma users_fresh s : users s !! fresh (dom (users s)) = None.
Proof. apply not_elem_of_dom, is_fresh. Qed.

Lemma register_after_save pk u ps w :
  set_store (set_users (insert pk u)) (add_rows pk ps (set_store (set_users (insert pk u)) w))
  = mkWorld (register pk u ps (store w)) (session w).
Proof.
  unfold add_rows, register, set_store, set_users, set_user_permissions. simpl.
  by rewrite insert_insert_eq.
Qed.

(** The handler, outcome by outcome. *)
Lemma create_user_run payload w :
  create_user payload w
  = let uname := CreateUser.username payload in
    let pk := fresh (dom (users (store w))) in
    match Users_filter_username uname (store w) with
    | _ :: _ => (inr (400%nat, Detail "Username is already used."), w)
    | [] =>
        if decide (uname = "")
        then (inl (ValueError "The given username must be set"), w)
        else match resolve registration_codenames (store w) with
             | inl e => (inl e, w)
             | inr ps =>
                 (inr (201%nat, Detail "Success."),
                  mkWorld (register pk (new_user payload) ps (store w)) (session w))
             end
    end.
Proof.
  cbv zeta. unfold create_user.
  unfold mbind at 1, M_bind at 1, bind at 1, gets at 1.
  destruct (Users_filter_username (CreateUser.username payload) (store w))
    as [|row rows] eqn:Hfree; [|done].
  unfold mbind at 1, M_bind at 1, bind at 1, atomic.
  rewrite create_user_transaction_grants.
  unfold mbind at 1, M_bind at 1, bind at 1. rewrite User_create_user_run.
  destruct (decide (CreateUser.username payload = "")) as [|Hne]; [by destruct w|].
  rewrite Hfree. cbv zeta.
  set (pk := fresh (dom (users (store w)))).
  pose proof (grant_each_run (pk, new_user payload) registration_codenames
                (User_save (pk, new_user payload))
                (set_store (set_users (insert pk (new_user payload))) w)) as Hrun.
  simpl store in Hrun.
  change (resolve registration_codenames (set_users _ (store w)))
    with (resolve registration_codenames (store w)) in Hrun.
  destruct (resolve registration_codenames (store w)) as [e|ps].
  - destruct Hrun as [ps Hrun]. unfold new_user in Hrun. rewrite Hrun. by destruct w.
  - unfold new_user in Hrun. rewrite Hrun. unfold User_save. unfold_M. simpl fst. simpl snd.
    by rewrite register_after_save.
Qed.

Lemma users_post_run payload w :
  users_post payload w
  = let uname := CreateUser.username payload in
    let pk := fresh (dom (users (store w))) in
    match Users_filter_username uname (store w) with
    | _ :: _ => (Response 400 (Detail "Username is already used."), w)
    | [] =>
        if decide (uname = "")
        then (Response 400 (Detail "The given username must be set"), w)
        else match resolve registration_codenames (store w) with
             | inl e => (exception_handler e, w)
             | inr ps =>
                 (Response 201 (Detail "Success."),
                  mkWorld (register pk (new_user payload) ps (store w)) (session w))
             end
    end.
Proof.
  unfold users_post, respond. rewrite create_user_run. cbv zeta.
  destruct (Users_filter_username _ (store w)); [|done].
  destruct (decide (CreateUser.username payload = "")); [done|].
  by destruct (resolve registration_codenames (store w)).
Qed.

(** What a user holds after [register]. *)
Lemma permissions_of_register pk u ps s pid :
  pid ∈ permissions_of pk (register pk u ps s) ↔ pid ∈ ps ∨ (pk, pid) ∈ user_permissions s.
Proof.
  unfold permissions_of, register. simpl. rewrite elem_of_map. split.
  - intros ([pk' pid'] & -> & [Hpk Hin]%elem_of_filter). simpl in *. subst pk'.
    apply elem_of_union in Hin as [Hin|Hin]; [left|by right].
    apply elem_of_list_to_set, list_elem_of_fmap in Hin as (p & [= ->] & Hp). done.
  - intros Hin. exists (pk, pid). split; [done|]. apply elem_of_filter. split; [done|].
    apply elem_of_union. destruct Hin as [Hin|Hin]; [left|by right].
    apply elem_of_list_to_set, list_elem_of_fmap. eauto.
Qed.

Lemma registered_fully_granted pk u ps s :
  resolve registration_codenames s = inr ps →
  fully_granted (register pk u ps s) pk.
Proof.
  intros Hres. unfold fully_granted.
  eapply Forall_impl; [by apply resolve_covers|]. simpl.
  intros c (pid & p & Hin & Hp & Hc). exists pid, p.
  split; [|done]. apply permissions_of_register. by left.
Qed.

(** Distinct codenames are resolved to distinct permissions. *)
Lemma resolve_NoDup cs s ps :
  NoDup cs → resolve cs s = inr ps → NoDup ps ∧ length ps = length cs.
Proof.
  revert ps. induction cs as [|c cs IH]; intros ps Hnd; simpl.
  { intros [= <-]. split; [constructor|done]. }
  apply NoDup_cons in Hnd as [Hc Hnd].
  destruct (Permission_filter_codename c s) as [|[pid0 p0] [|]] eqn:Hrows; try done.
  destruct (resolve cs s) as [|ps'] eqn:Hres; [done|].
  intros [= <-]. simpl. destruct (IH ps' Hnd eq_refl) as [Hnd' Hlen].
  split; [|by rewrite Hlen]. apply NoDup_cons. split; [|done].
  intros Hin. apply (resolve_keys _ _ _ Hres) in Hin as (p & Hp & Hcs).
  destruct (filter_codename_singleton _ _ _ _ Hrows) as (Hp0 & Hc0 & _).
  congruence.
Qed.

Lemma registration_codenames_NoDup : NoDup registration_codenames.
Proof. apply (bool_decide_unpack (NoDup registration_codenames)). by vm_compute. Qed.

Lemma create_user_unfold payload w :
  create_user payload w
  = match Users_filter_username (CreateUser.username payload) (store w) with
    | _ :: _ => (inr (400%nat, Detail "Username is already used."), w)
    | [] =>
        match atomic (create_user_transaction payload) w with
        | (inr _, w1) => (inr (201%nat, Detail "Success."), w1)
        | (inl e, w1) => (inl e, w1)
        end
    end.
Proof.
  unfold create_user. unfold_M.
  destruct (Users_filter_username _ (store w)); [|done].
  by destruct (atomic _ w) as [[|] ?].
Qed.

(** The body of the transaction, run outside [transaction.atomic()] in a
    store that lacks the permission [view_lift], raises with the user row
    and five of its six grants written. *)
Lemma transaction_body_leaves_partial_user :
  let payload := Deployment.cat in
  let r := @create_user_transaction Deployment.auth payload Deployment.half_migrated in
  r.1 = inl (DoesNotExist PermissionModel)
  ∧ users (store r.2) !! 3%nat = Some (@new_user Deployment.auth payload)
  ∧ size (permissions_of 3 (store r.2)) = 5%nat.
Proof. by vm_compute. Qed.

(** C2.  Registration either leaves the world exactly as it was, so that
    nothing of a user creation that raised remains, or it answers 201 and
    the one user row it added, under a primary key that was unused, holds
    a stored permission for each of the six codenames.  A request whose
    transaction raises is in the first case. *)
Theorem create_user_atomic (w : World) (payload : CreateUser.t) :
  ((users_post payload w).2 = w
   ∨ (users_post payload w).1 = Response 201 (Detail "Success.")
     ∧ ∃ pk u,
         users (store w) !! pk = None
         ∧ users (store (users_post payload w).2) = <[pk := u]> (users (store w))
         ∧ fully_granted (store (users_post payload w).2) pk)
  ∧ match (create_user_transaction payload w).1 with
    | inl _ => (users_post payload w).2 = w
    | inr _ => True
    end.
Proof.
  split.
  - rewrite users_post_run. cbv zeta.
    destruct (Users_filter_username _ (store w)); [|by left].
    destruct (decide (CreateUser.username payload = "")); [by left|].
    destruct (resolve registration_codenames (store w)) as [e|ps] eqn:Hres; [by left|].
    right. split; [done|]. simpl.
    exists (fresh (dom (users (store w)))), (new_user payload).
    split_and!; [apply users_fresh|done|by apply registered_fully_granted].
  - assert ((create_user_transaction payload w).1
            = (atomic (create_user_transaction payload) w).1) as ->.
    { unfold atomic. by destruct (create_user_transaction payload w) as [[|] ?]. }
    pose proof (create_user_run payload w) as Hrun. cbv zeta in Hrun.
    unfold users_post, respond. rewrite create_user_unfold in *.
    destruct (Users_filter_username _ (store w)); [|by destruct (atomic _ w).1].
    destruct (atomic (create_user_transaction payload) w) as [[e|[]] w1]; simpl; [|done].
    destruct (decide (CreateUser.username payload = "")); [by injection Hrun as _ ->|].
    destruct (resolve registration_codenames (store w)); [by injection Hrun as _ ->|done].
Qed.

(** C3.  After a registration answered 201, in a store whose many-to-many
    table names stored users only: one user row was added, under a primary
    key that was unused; it carries the payload's username and is marked
    staff; and the permissions it holds are exactly the stored permissions
    whose codename is one of the six, six permissions in all. *)
Theorem registration_grants (w : World) (payload : CreateUser.t) :
  referential_integrity (store w) →
  (users_post payload w).1 = Response 201 (Detail "Success.") →
  let s' := store (users_post payload w).2 in
  ∃ pk u,
    users (store w) !! pk = None
    ∧ users s' = <[pk := u]> (users (store w))
    ∧ username u = CreateUser.username payload
    ∧ is_staff u = true
    ∧ (∀ pid, pid ∈ permissions_of pk s'
              ↔ ∃ p, permissions s' !! pid = Some p ∧ codename p ∈ registration_codenames)
    ∧ size (permissions_of pk s') = 6%nat.
Proof.
  intros Hfk. rewrite users_post_run. cbv zeta.
  destruct (Users_filter_username _ (store w)); [|done].
  destruct (decide (CreateUser.username payload = "")); [done|].
  destruct (resolve registration_codenames (store w)) as [e|ps] eqn:Hres.
  { by destruct e. }
  intros _. simpl.
  set (pk := fresh (dom (users (store w)))).
  assert (users (store w) !! pk = None) as Hfresh by apply users_fresh.
  assert (∀ pid, pid ∈ permissions_of pk (register pk (new_user payload) ps (store w))
                 ↔ pid ∈ ps) as Hheld.
  { intros pid. rewrite permissions_of_register. split; [|by left].
    intros [?|Hrow]; [done|]. apply Hfk in Hrow as [u Hu]. simpl in Hu. congruence. }
  exists pk, (new_user payload). split_and!; try done.
  - intros pid. rewrite Hheld. apply (resolve_keys _ _ _ Hres).
  - destruct (resolve_NoDup _ _ _ registration_codenames_NoDup Hres) as [Hnd Hlen].
    assert (permissions_of pk (register pk (new_user payload) ps (store w))
            = list_to_set ps) as ->.
    { apply set_eq. intros pid. by rewrite Hheld, elem_of_list_to_set. }
    by rewrite size_list_to_set, Hlen.
Qed.

(** Of rows with distinct keys, at most one has a given key. *)
Lemma filter_key_NoDup {A B} `{EqDecision B} (f : A → B) (b : B) (l : list A) :
  NoDup (f <$> l) → (length (filter (λ x, f x = b) l) ≤ 1)%nat.
Proof.
  induction l as [|x l IH]; simpl; [lia|].
  intros [Hx Hnd]%NoDup_cons. rewrite filter_cons.
  destruct (decide (f x = b)) as [Hfx|]; [|by apply IH]. simpl.
  assert (filter (λ y, f y = b) l = []) as ->; [|simpl; lia].
  destruct (filter (λ y, f y = b) l) as [|y rest] eqn:Hrest; [done|].
  assert (y ∈ filter (λ y, f y = b) l) as [Hfy Hy]%list_elem_of_filter.
  { rewrite Hrest. by left. }
  destruct Hx. apply list_elem_of_fmap. exists y. split; [congruence|done].
Qed.

Lemma Users_filter_username_spec uname s row :
  row ∈ Users_filter_username uname s ↔ users s !! row.1 = Some row.2 ∧ username row.2 = uname.
Proof.
  unfold Users_filter_username. rewrite list_elem_of_filter.
  destruct row as [k u]. rewrite elem_of_map_to_list. simpl. tauto.
Qed.

Lemma username_taken_once uname s pk u :
  unique_usernames s → users s !! pk = Some u → username u = uname →
  length (Users_filter_username uname s) = 1%nat.
Proof.
  intros Huniq Hu Hname.
  pose proof (filter_key_NoDup (λ row : nat * User, username row.2) uname
                (map_to_list (users s)) Huniq) as Hle.
  assert ((pk, u) ∈ Users_filter_username uname s) as Hin.
  { by apply Users_filter_username_spec. }
  unfold Users_filter_username in *.
  destruct (filter _ (map_to_list (users s))) as [|? [|]]; simpl in *;
    [by apply elem_of_nil in Hin|done|lia].
Qed.

(** C4.  When a stored user already has the payload's username, in a store
    that satisfies the uniqueness constraint on usernames, registration
    answers 400 "Username is already used.", the world is as before, so
    that nothing was inserted, and exactly one user row has that username
    afterwards. *)
Theorem create_user_username_taken
    (w : World) (payload : CreateUser.t) (pk : nat) (u : User) :
  unique_usernames (store w) →
  users (store w) !! pk = Some u →
  username u = CreateUser.username payload →
  users_post payload w = (Response 400 (Detail "Username is already used."), w)
  ∧ length (Users_filter_username (CreateUser.username payload)
              (store (users_post payload w).2)) = 1%nat.
Proof.
  intros Huniq Hu Hname.
  pose proof (username_taken_once _ _ _ _ Huniq Hu Hname) as Hone.
  assert (users_post payload w = (Response 400 (Detail "Username is already used."), w)) as ->.
  { rewrite users_post_run. cbv zeta.
    by destruct (Users_filter_username _ (store w)). }
  done.
Qed.

(** Registration keeps the constraints of the store. *)
Lemma users_post_unique_usernames payload w :
  unique_usernames (store w) → unique_usernames (store (users_post payload w).2).
Proof.
  intros Huniq. rewrite users_post_run. cbv zeta.
  destruct (Users_filter_username _ (store w)) as [|] eqn:Hfree; [|done].
  destruct (decide (CreateUser.username payload = "")); [done|].
  destruct (resolve registration_codenames (store w)) as [e|ps]; [done|].
  unfold unique_usernames. simpl.
  rewrite map_to_list_insert by apply users_fresh.
  rewrite fmap_cons. apply NoDup_cons. split; [|done]. simpl.
  intros ([pk u] & Hname & Hin)%list_elem_of_fmap. simpl in Hname.
  assert ((pk, u) ∈ Users_filter_username (CreateUser.username payload) (store w)) as Hrow.
  { apply Users_filter_username_spec. by apply elem_of_map_to_list in Hin. }
  rewrite Hfree in Hrow. by apply elem_of_nil in Hrow.
Qed.

Lemma users_post_referential_integrity payload w :
  referential_integrity (store w) → referential_integrity (store (users_post payload w).2).
Proof.
  intros Hfk. rewrite users_post_run. cbv zeta.
  destruct (Users_filter_username _ (store w)); [|done].
  destruct (decide (CreateUser.username payload = "")); [done|].
  destruct (resolve registration_codenames (store w)) as [e|ps]; [done|].
  unfold referential_integrity, register. simpl.
  intros [uid pid] [Hnew|Hold]%elem_of_union; simpl; apply lookup_insert_is_Some.
  - apply elem_of_list_to_set, list_elem_of_fmap in Hnew as (p & [= -> ->] & _). by left.
  - destruct (decide (fresh (dom (users (store w))) = uid)); [by left|right].
    split; [done|]. by apply (Hfk (uid, pid)).
Qed.

(** Registering the same username twice: the second request is answered
    400 and one row carries the username. *)
Lemma register_twice payload w :
  unique_usernames (store w) →
  (users_post payload w).1 = Response 201 (Detail "Success.") →
  let w1 := (users_post payload w).2 in
  users_post payload w1 = (Response 400 (Detail "Username is already used."), w1)
  ∧ length (Users_filter_username (CreateUser.username payload) (store w1)) = 1%nat.
Proof.
  intros Huniq H201 w1.
  pose proof (users_post_unique_usernames payload w Huniq) as Huniq1. fold w1 in Huniq1.
  assert (users (store w1) !! fresh (dom (users (store w))) = Some (new_user payload)) as Hrow.
  { subst w1. revert H201. rewrite users_post_run. cbv zeta.
    destruct (Users_filter_username _ (store w)); [|done].
    destruct (decide (CreateUser.username payload = "")); [done|].
    destruct (resolve registration_codenames (store w)) as [e|ps]; [by destruct e|].
    intros _. apply lookup_insert_eq. }
  pose proof (username_taken_once _ _ _ _ Huniq1 Hrow eq_refl) as Hone.
  split; [|done]. rewrite users_post_run. cbv zeta.
  by destruct (Users_filter_username _ (store w1)).
Qed.

End Properties.

(** * The statements, run on the deployment *)

Import Deployment.

(** C1.  The claim has the listing newest first.  Ann is authenticated and
    has a lift of day 739000 and one of day 739002; her listing is answered
    with the older lift first, so it is not in descending order of date. *)
Lemma list_lifts_not_descending :
  @request_user auth ann_session = Some (1%nat, ann)
  ∧ (@lifts_get auth ann_session).1
    = Response 200 (LiftRows [(1%nat, mkLift 1 739000 1 5 100);
                              (3%nat, mkLift 1 739002 1 3 110)])
  ∧ ¬ Sorted (flip date_le) [(1%nat, mkLift 1 739000 1 5 100);
                             (3%nat, mkLift 1 739002 1 3 110)].
Proof.
  split; [by vm_compute|]. split; [by vm_compute|].
  intros Hsorted. apply Sorted_inv in Hsorted as [_ Hhd]. apply HdRel_inv in Hhd.
  unfold flip, date_le in Hhd. simpl in Hhd. lia.
Qed.

Lemma list_lifts_ascending_by_date_witness :
  @request_user auth ann_session = Some (1%nat, ann)
  ∧ ∃ rows,
      @lifts_get auth ann_session = (Response 200 (LiftRows rows), ann_session)
      ∧ rows ≡ₚ Lift_filter_user 1 gym
      ∧ StronglySorted date_le rows.
Proof.
  split; [by vm_compute|].
  apply (@list_lifts_ascending_by_date auth ann_session (1%nat, ann)). by vm_compute.
Defined.

Lemma list_lifts_only_own_witness :
  1%nat ≠ 2%nat
  ∧ @request_user auth ann_session = Some (1%nat, ann)
  ∧ ∃ rows,
      @lifts_get auth ann_session = (Response 200 (LiftRows rows), ann_session)
      ∧ Forall (λ row, user row.2 = 1%nat) rows
      ∧ Forall (λ row, user row.2 ≠ 2%nat) rows.
Proof.
  split; [lia|]. split; [by vm_compute|].
  apply (@list_lifts_only_own auth ann_session (1%nat, ann) (2%nat, bob)); [simpl; lia|].
  by vm_compute.
Defined.

Lemma create_lift_exercise_lookup_witness :
  @request_user auth ann_session = Some (1%nat, ann)
  ∧ @lifts_post auth lift_of_unknown_exercise ann_session
    = (Response 404 (Detail "Exercise not found."), ann_session).
Proof.
  split; [by vm_compute|].
  apply (@create_lift_exercise_lookup auth ann_session (1%nat, ann) lift_of_unknown_exercise).
  by vm_compute.
Defined.

(** The other branch of C5 on the same session: the lift is stored under
    the unused key 4 and is Ann's. *)
Lemma create_lift_stored :
  let r := @lifts_post auth lift_of_squat ann_session in
  r.1 = Response 201 (Detail "Lift created successfully.")
  ∧ lifts gym !! 4%nat = None
  ∧ lifts (store r.2) !! 4%nat = Some (mkLift 1 739003 1 8 60).
Proof. by vm_compute. Qed.

Lemma login_invalid_credentials_witness :
  (@authenticate auth (Login.username wrong_login) (Login.password wrong_login) anonymous).1
  = inr None
  ∧ auth_user_id (session anonymous) = None
  ∧ @users_login_post auth wrong_login anonymous
    = (Response 400 (Detail "Invalid credentials."), anonymous)
  ∧ @users_current_get auth (@users_login_post auth wrong_login anonymous).2
    = (Response 401 (Detail "Unauthorized"), anonymous).
Proof.
  split; [by vm_compute|]. split; [reflexivity|].
  apply (@login_invalid_credentials auth anonymous wrong_login); [by vm_compute|reflexivity].
Defined.

Lemma change_password_keeps_session_witness :
  @request_user auth ann_session = Some (1%nat, ann)
  ∧ (let u' := @set_password auth ann (ChangePassword.new_password strong_change) in
     let w' := (@users_change_password_post auth strong_change ann_session).2 in
     (@users_change_password_post auth strong_change ann_session).1
       = Response 200 (Detail "Password changed successfully.")
     ∧ users (store w') !! 1%nat = Some u'
     ∧ password u' = @make_password auth (ChangePassword.new_password strong_change)
     ∧ auth_user_id (session w') = auth_user_id (session ann_session)
     ∧ @request_user auth w' = Some (1%nat, u')).
Proof.
  split; [by vm_compute|].
  apply (@change_password_keeps_session auth ann_session 1%nat ann strong_change);
    by vm_compute.
Defined.

Lemma change_password_weak_unchanged_witness :
  @request_user auth ann_session = Some (1%nat, ann)
  ∧ @password_validators auth (ChangePassword.new_password weak_change) ≠ []
  ∧ @users_change_password_post auth weak_change ann_session
    = (Response 400
         (Detail (join " " (@password_validators auth (ChangePassword.new_password weak_change)))),
       ann_session)
  ∧ users (store (@users_change_password_post auth weak_change ann_session).2) !! 1%nat
    = Some ann.
Proof.
  split; [by vm_compute|]. split; [by vm_compute|].
  apply (@change_password_weak_unchanged auth ann_session 1%nat ann weak_change);
    by vm_compute.
Defined.

(** The answer of that request, spelled out. *)
Lemma change_password_weak_answer :
  (@users_change_password_post auth weak_change ann_session).1
  = Response 400
      (Detail "This password is too short. It must contain at least 8 characters.").
Proof. by vm_compute. Qed.

Lemma gym_referential_integrity : referential_integrity gym.
Proof. apply (bool_decide_unpack (referential_integrity gym)). by vm_compute. Defined.

Lemma gym_unique_usernames : unique_usernames gym.
Proof. apply (bool_decide_unpack (unique_usernames gym)). by vm_compute. Defined.

Lemma registration_grants_witness :
  referential_integrity (store anonymous)
  ∧ (@users_post auth cat anonymous).1 = Response 201 (Detail "Success.")
  ∧ (let s' := store (@users_post auth cat anonymous).2 in
     ∃ pk u,
       users (store anonymous) !! pk = None
       ∧ users s' = <[pk := u]> (users (store anonymous))
       ∧ username u = CreateUser.username cat
       ∧ is_staff u = true
       ∧ (∀ pid, pid ∈ permissions_of pk s'
                 ↔ ∃ p, permissions s' !! pid = Some p ∧ codename p ∈ registration_codenames)
       ∧ size (permissions_of pk s') = 6%nat).
Proof.
  split; [exact gym_referential_integrity|]. split; [by vm_compute|].
  apply (@registration_grants auth anonymous cat); [exact gym_referential_integrity|].
  by vm_compute.
Defined.

Lemma create_user_username_taken_witness :
  unique_usernames (store anonymous)
  ∧ users (store anonymous) !! 1%nat = Some ann
  ∧ username ann = CreateUser.username ann_again
  ∧ @users_post auth ann_again anonymous
    = (Response 400 (Detail "Username is already used."), anonymous)
  ∧ length (Users_filter_username (CreateUser.username ann_again)
              (store (@users_post auth ann_again anonymous).2)) = 1%nat.
Proof.
  split; [exact gym_unique_usernames|]. split; [by vm_compute|]. split; [reflexivity|].
  apply (@create_user_username_taken auth anonymous ann_again 1%nat ann);
    [exact gym_unique_usernames|by vm_compute|reflexivity].
Defined.

(** A store that lacks one of the six permissions: the transaction raises,
    the exception is not one the API handles, and no user row remains. *)
Lemma registration_rolled_back :
  @users_post auth cat half_migrated
  = (Unhandled (DoesNotExist PermissionModel), half_migrated).
Proof.
  rewrite users_post_run. by vm_compute.
Qed.

(** * The rest of the API *)

Section MoreProperties.
Context `{Auth}.

(** ** The gate, on every endpoint behind it *)


(** X1.  A request to an endpoint behind the session gate, made on a
    session that authenticates nobody, is answered 401 "Unauthorized", and
    the store is as before: the handler did not run. *)
Theorem gated_unauthenticated (r : Request) (w : World) :
  gated r = true →
  request_user w = None →
  (api r w).1 = Response 401 (Detail "Unauthorized")
  ∧ store (api r w).2 = store w.
Proof.
  intros Hg Hanon. destruct r; try done; simpl;
    unfold exercises_post, lifts_get, lifts_post, users_current_get,
      users_change_password_post;
    match goal with
    | |- context [respond (session_auth ?h) w] =>
        destruct (session_auth_anonymous h w Hanon) as (w' & -> & Hs)
    end; done.
Qed.

(** ** What the handlers write *)

Lemma Exercise_create_fresh w : exercises (store w) !! fresh (dom (exercises (store w))) = None.
Proof. apply not_elem_of_dom, is_fresh. Qed.

Lemma create_exercise_run payload u w :
  create_exercise payload u w
  = (inr (201%nat, Detail "Exercise created successfully."),
     set_store (set_exercises (insert (fresh (dom (exercises (store w))))
                  (mkExercise (CreateExerciseSchema.name payload) u.1))) w).
Proof. reflexivity. Qed.

Lemma change_password_wrong_current payload u w :
  verify_password (ChangePassword.current_password payload) (password u.2) = false →
  change_password payload u w
  = (inr (400%nat, Detail "Current password is incorrect."), w).
Proof. intros Hv. unfold change_password. by rewrite Hv. Qed.



(** ** Rows are added, never removed or rewritten *)







(** ** The constraints of the store are kept *)

Lemma usernames_overwrite (m : gmap nat User) pk u u' :
  m !! pk = Some u → username u' = username u →
  (λ row : nat * User, username row.2) <$> map_to_list (<[pk := u']> m)
  ≡ₚ (λ row : nat * User, username row.2) <$> map_to_list m.
Proof.
  intros Hrow Hname.
  rewrite <-(insert_delete_eq m pk u').
  rewrite map_to_list_insert by apply lookup_delete_eq.
  rewrite <-(map_to_list_delete m pk u Hrow).
  rewrite !fmap_cons. simpl. by rewrite Hname.
Qed.




(** ** Logging in *)



(** The one row of a username, in a store with unique usernames. *)
Lemma username_row uname s pk u :
  unique_usernames s → users s !! pk = Some u → username u = uname →
  Users_filter_username uname s = [(pk, u)].
Proof.
  intros Huniq Hu Hname.
  pose proof (username_taken_once _ _ _ _ Huniq Hu Hname) as Hone.
  assert ((pk, u) ∈ Users_filter_username uname s) as Hin.
  { by apply Users_filter_username_spec. }
  destruct (Users_filter_username uname s) as [|row [|]]; try done.
  apply list_elem_of_singleton in Hin. by subst.
Qed.

Lemma authenticate_run uname raw w pk u :
  Users_filter_username uname (store w) = [(pk, u)] →
  authenticate uname raw w
  = (inr (if verify_password raw (password u) && is_active u then Some (pk, u) else None), w).
Proof.
  intros Hrows. unfold authenticate. unfold_M. rewrite Hrows.
  by destruct (verify_password raw (password u) && is_active u).
Qed.



(** ** Changing the password *)

(** X8.  For an authenticated request whose current password does not
    verify, the answer is 400 "Current password is incorrect." and the
    world is as before, whether or not the validators would accept the new
    password: they are not consulted. *)
Theorem change_password_wrong_current_unchanged
    (w : World) (pk : nat) (u : User) (payload : ChangePassword.t) :
  request_user w = Some (pk, u) →
  verify_password (ChangePassword.current_password payload) (password u) = false →
  users_change_password_post payload w
  = (Response 400 (Detail "Current password is incorrect."), w).
Proof.
  intros Hu Hv. unfold users_change_password_post, respond.
  rewrite (session_auth_authenticated _ _ _ Hu).
  by rewrite (change_password_wrong_current payload (pk, u) w Hv).
Qed.

(** X9.  In a store with unique usernames, after a password change that
    was answered 200: logging in with the username and the new password is
    answered 200, when the hasher verifies what it encoded; and logging in
    with a password that the new hash does not verify, the old one if the
    hasher tells them apart, is answered 400 "Invalid credentials.". *)
Theorem change_password_then_login
    (w : World) (pk : nat) (u : User) (payload : ChangePassword.t) (old : string) :
  unique_usernames (store w) →
  request_user w = Some (pk, u) →
  (users_change_password_post payload w).1
  = Response 200 (Detail "Password changed successfully.") →
  verify_password (ChangePassword.new_password payload)
    (make_password (ChangePassword.new_password payload)) = true →
  verify_password old (make_password (ChangePassword.new_password payload)) = false →
  let w' := (users_change_password_post payload w).2 in
  (users_login_post (Login.mk (username u) (ChangePassword.new_password payload)) w').1
  = Response 200 (Detail "Success.")
  ∧ (users_login_post (Login.mk (username u) old) w').1
    = Response 400 (Detail "Invalid credentials.").
Proof.
  intros Huniq Hu H200 Hnew Hold w'.
  destruct (request_user_inv _ _ _ Hu) as (Hid & Hrow & Hact & Hhash).
  set (u' := set_password u (ChangePassword.new_password payload)).
  assert (store w' = set_users (insert pk u') (store w)) as Hstore.
  { subst w'. revert H200. unfold users_change_password_post, respond.
    rewrite (session_auth_authenticated _ _ _ Hu).
    destruct (verify_password (ChangePassword.current_password payload) (password u))
      eqn:Hv.
    - destruct (password_validators (ChangePassword.new_password payload)) eqn:Hp.
      + by rewrite (change_password_success payload (pk, u) w Hv Hp).
      + by rewrite (change_password_rejected payload (pk, u) w Hv) by (by rewrite Hp).
    - by rewrite (change_password_wrong_current payload (pk, u) w Hv). }
  assert (Users_filter_username (username u) (store w') = [(pk, u')]) as Hrows.
  { rewrite Hstore. apply username_row; simpl.
    - unfold unique_usernames. simpl. by rewrite (usernames_overwrite _ _ u).
    - apply lookup_insert_eq.
    - done. }
  unfold users_login_post, respond, login. unfold_M. simpl.
  rewrite !(authenticate_run _ _ _ _ _ Hrows). simpl.
  by rewrite Hnew, Hold, Hact.
Qed.

(** ** Lifts: creating, then listing *)

(** Who a request is depends on the session and the user table only. *)
Lemma request_user_ext w w' :
  session w' = session w → users (store w') = users (store w) →
  request_user w' = request_user w.
Proof.
  destruct w as [s ss], w' as [s' ss']. simpl. intros -> Hu.
  unfold request_user, get_user, backend_get_user. unfold_M. simpl.
  destruct (auth_user_id ss) as [pk|]; [|done]. simpl. rewrite Hu.
  destruct (users s !! pk) as [u|]; [|done].
  destruct (is_active u); [|done]. by destruct (session_verified ss u).
Qed.

Lemma Lift_filter_user_insert pk s k row :
  lifts s !! k = None →
  Lift_filter_user pk (set_lifts (insert k row) s)
  ≡ₚ (if decide (user row = pk) then [(k, row)] else []) ++ Lift_filter_user pk s.
Proof.
  intros Hk. unfold Lift_filter_user. simpl.
  rewrite map_to_list_insert by done. rewrite filter_cons. simpl.
  by destruct (decide (user row = pk)).
Qed.

(** X10.  After a lift creation answered 201, the requester's listing is
    the listing before together with one more row, the new lift, owned by
    the requester and stored under a key no listed row had. *)
Theorem created_lift_listed
    (w : World) (u : nat * User) (payload : CreateLiftSchema.t) (e : Exercise) :
  request_user w = Some u →
  exercises (store w) !! CreateLiftSchema.exercise_id payload = Some e →
  let w1 := (lifts_post payload w).2 in
  let row := mkLift u.1 (CreateLiftSchema.date payload)
               (CreateLiftSchema.exercise_id payload)
               (CreateLiftSchema.repetitions payload)
               (CreateLiftSchema.weight payload) in
  ∃ pk rows rows1,
    lifts_get w = (Response 200 (LiftRows rows), w)
    ∧ lifts_get w1 = (Response 200 (LiftRows rows1), w1)
    ∧ rows1 ≡ₚ (pk, row) :: rows
    ∧ pk ∉ rows.*1.
Proof.
  intros Hu He w1 row.
  set (pk := fresh (dom (lifts (store w)))).
  assert (w1 = set_store (set_lifts (insert pk row)) w) as Hw1.
  { subst w1. unfold lifts_post, respond.
    rewrite (session_auth_authenticated _ _ _ Hu).
    by rewrite (create_lift_found _ _ _ _ He). }
  assert (request_user w1 = Some u) as Hu1.
  { rewrite <-Hu, Hw1. by apply request_user_ext. }
  exists pk, (order_by_date (Lift_filter_user u.1 (store w))),
    (order_by_date (Lift_filter_user u.1 (store w1))).
  split_and!.
  - unfold lifts_get, respond.
    by rewrite (session_auth_authenticated _ _ _ Hu), list_lifts_run.
  - unfold lifts_get, respond.
    by rewrite (session_auth_authenticated _ _ _ Hu1), list_lifts_run.
  - rewrite !order_by_date_Permutation, Hw1. simpl.
    rewrite Lift_filter_user_insert by apply Lift_create_fresh.
    subst row. simpl. by rewrite decide_True.
  - intros ([k l] & Hk & Hin)%list_elem_of_fmap. simpl in Hk.
    rewrite order_by_date_Permutation in Hin.
    apply Lift_filter_user_spec in Hin as [Hin _]. simpl in Hin.
    rewrite <-Hk in Hin. unfold pk in Hin. by rewrite Lift_create_fresh in Hin.
Qed.

(** X11.  A lift creation by one user leaves the listing of every other
    user with the same rows: what is answered to a session of another
    user on the store after is a permutation of what is answered on the
    store before. *)
Theorem created_lift_not_listed_to_others
    (w : World) (u : nat * User) (payload : CreateLiftSchema.t)
    (other : Session) (B : nat * User) :
  request_user w = Some u →
  request_user (mkWorld (store w) other) = Some B →
  B.1 ≠ u.1 →
  let w1 := (lifts_post payload w).2 in
  ∃ rows rows1,
    lifts_get (mkWorld (store w) other)
    = (Response 200 (LiftRows rows), mkWorld (store w) other)
    ∧ lifts_get (mkWorld (store w1) other)
      = (Response 200 (LiftRows rows1), mkWorld (store w1) other)
    ∧ rows1 ≡ₚ rows.
Proof.
  intros Hu HB Hne w1.
  exists (order_by_date (Lift_filter_user B.1 (store w))),
    (order_by_date (Lift_filter_user B.1 (store w1))).
  assert (store w1 = store w
          ∨ store w1 = set_lifts (insert (fresh (dom (lifts (store w))))
                         (mkLift u.1 (CreateLiftSchema.date payload)
                            (CreateLiftSchema.exercise_id payload)
                            (CreateLiftSchema.repetitions payload)
                            (CreateLiftSchema.weight payload))) (store w)) as Hw1.
  { subst w1. unfold lifts_post, respond.
    rewrite (session_auth_authenticated _ _ _ Hu).
    destruct (exercises (store w) !! CreateLiftSchema.exercise_id payload) as [e|] eqn:He.
    - right. by rewrite (create_lift_found _ _ _ _ He).
    - left. by rewrite (create_lift_missing _ _ _ He). }
  assert (request_user (mkWorld (store w1) other) = Some B) as HB1.
  { rewrite <-HB. apply request_user_ext; [done|]. simpl. by destruct Hw1 as [->| ->]. }
  split_and!.
  - unfold lifts_get, respond.
    by rewrite (session_auth_authenticated _ _ _ HB), list_lifts_run.
  - unfold lifts_get, respond.
    by rewrite (session_auth_authenticated _ _ _ HB1), list_lifts_run.
  - rewrite !order_by_date_Permutation.
    destruct Hw1 as [->| ->]; [done|].
    rewrite Lift_filter_user_insert by apply Lift_create_fresh.
    simpl. by rewrite decide_False by done.
Qed.

(** X12.  For an authenticated user the lift listing writes nothing and is
    answered 200 with the stored lifts of that user and no other row: a
    row is listed exactly when it is stored and owned by the requester,
    and no row is listed twice. *)
Theorem list_lifts_complete (w : World) (u : nat * User) :
  request_user w = Some u →
  ∃ rows,
    lifts_get w = (Response 200 (LiftRows rows), w)
    ∧ NoDup rows
    ∧ ∀ row, row ∈ rows ↔ lifts (store w) !! row.1 = Some row.2 ∧ user row.2 = u.1.
Proof.
  intros Hu. exists (order_by_date (Lift_filter_user u.1 (store w))). split_and!.
  - unfold lifts_get, respond.
    by rewrite (session_auth_authenticated _ _ _ Hu), list_lifts_run.
  - rewrite order_by_date_Permutation. unfold Lift_filter_user.
    apply NoDup_filter, NoDup_map_to_list.
  - intros row. rewrite order_by_date_Permutation. apply Lift_filter_user_spec.
Qed.

(** ** Exercises *)

(** X13.  For an authenticated user, creating an exercise is answered 201;
    the only change is one new exercise row, under a primary key that was
    unused, with the payload's name and the requester as creator.  Names
    are not checked against the stored ones: the number of exercises of
    that name grows by one, whether or not the name was stored before. *)
Theorem create_exercise_stored
    (w : World) (u : nat * User) (payload : CreateExerciseSchema.t) :
  request_user w = Some u →
  let pk := fresh (dom (exercises (store w))) in
  let row := mkExercise (CreateExerciseSchema.name payload) u.1 in
  let named (s : Store) :=
    filter (λ r : nat * Exercise, name r.2 = CreateExerciseSchema.name payload)
      (map_to_list (exercises s)) in
  exercises (store w) !! pk = None
  ∧ exercises_post payload w
    = (Response 201 (Detail "Exercise created successfully."),
       set_store (set_exercises (insert pk row)) w)
  ∧ length (named (store (exercises_post payload w).2)) = S (length (named (store w))).
Proof.
  intros Hu pk row named.
  assert (exercises_post payload w
          = (Response 201 (Detail "Exercise created successfully."),
             set_store (set_exercises (insert pk row)) w)) as Hrun.
  { unfold exercises_post, respond.
    by rewrite (session_auth_authenticated _ _ _ Hu), create_exercise_run. }
  split_and!; [apply Exercise_create_fresh|done|].
  rewrite Hrun. subst named. simpl.
  rewrite map_to_list_insert by apply Exercise_create_fresh.
  by rewrite filter_cons_True.
Qed.

(** X14.  The key under which the next exercise will be stored names no
    exercise yet, so a lift of it is answered 404; once the exercise is
    created by the same authenticated user, the same lift request is
    answered 201. *)
Theorem created_exercise_can_be_lifted
    (w : World) (u : nat * User) (new : CreateExerciseSchema.t)
    (payload : CreateLiftSchema.t) :
  request_user w = Some u →
  CreateLiftSchema.exercise_id payload = fresh (dom (exercises (store w))) →
  (lifts_post payload w).1 = Response 404 (Detail "Exercise not found.")
  ∧ (lifts_post payload (exercises_post new w).2).1
    = Response 201 (Detail "Lift created successfully.").
Proof.
  intros Hu Hid. split.
  - unfold lifts_post, respond. rewrite (session_auth_authenticated _ _ _ Hu).
    rewrite create_lift_missing; [done|]. rewrite Hid. apply Exercise_create_fresh.
  - assert ((exercises_post new w).2
            = set_store (set_exercises (insert (fresh (dom (exercises (store w))))
                (mkExercise (CreateExerciseSchema.name new) u.1))) w) as ->.
    { unfold exercises_post, respond.
      by rewrite (session_auth_authenticated _ _ _ Hu), create_exercise_run. }
    assert (request_user (set_store (set_exercises (insert (fresh (dom (exercises (store w))))
                (mkExercise (CreateExerciseSchema.name new) u.1))) w) = Some u) as Hu1.
    { rewrite <-Hu. by apply request_user_ext. }
    unfold lifts_post, respond. rewrite (session_auth_authenticated _ _ _ Hu1).
    erewrite create_lift_found; [done|]. simpl. rewrite Hid. apply lookup_insert_eq.
Qed.

(** ** Registration *)



(** X16.  Registration, whatever its answer, leaves every stored user with
    the same row and the same permissions. *)
Theorem registration_frame (w : World) (payload : CreateUser.t) (pk : nat) (u : User) :
  users (store w) !! pk = Some u →
  users (store (users_post payload w).2) !! pk = Some u
  ∧ permissions_of pk (store (users_post payload w).2) = permissions_of pk (store w).
Proof.
  intros Hu. rewrite users_post_run. cbv zeta.
  destruct (Users_filter_username _ (store w)); [|done].
  destruct (decide (CreateUser.username payload = "")); [done|].
  destruct (resolve registration_codenames (store w)) as [e|ps]; [done|]. simpl.
  assert (fresh (dom (users (store w))) ≠ pk) as Hne.
  { intros <-. by rewrite users_fresh in Hu. }
  split; [by rewrite lookup_insert_ne|].
  apply set_eq. intros pid. unfold permissions_of, register. simpl.
  rewrite !elem_of_map. split.
  - intros ([pk' pid'] & -> & [Hpk Hin]%elem_of_filter). simpl in *. subst pk'.
    apply elem_of_union in Hin as [Hin|Hin].
    + apply elem_of_list_to_set, list_elem_of_fmap in Hin as (q & [= Heq _] & _).
      by destruct Hne.
    + exists (pk, pid'). split; [done|]. by apply elem_of_filter.
  - intros ([pk' pid'] & -> & [Hpk Hin]%elem_of_filter). simpl in *. subst pk'.
    exists (pk, pid'). split; [done|]. apply elem_of_filter. split; [done|].
    apply elem_of_union. by right.
Qed.

(** ** The listings ordered by creation time *)

Global Instance key_ge_total {R} (key : R → Z) : Total (key_ge key).
Proof. intros a b. unfold key_ge. lia. Qed.

Global Instance key_ge_trans {R} (key : R → Z) : Transitive (key_ge key).
Proof. intros a b c. unfold key_ge. lia. Qed.

(** X17.  The category listing is answered 200 with every row of the
    category table, each once, in descending order of creation time: the
    newest category comes first.  It is the same for every user. *)
Theorem list_categories_newest_first
    (Category_objects : gmap nat Category.t) (u v : nat * User) :
  let rows := (list_categories Category_objects u).2 in
  (list_categories Category_objects u).1 = 200%nat
  ∧ list_categories Category_objects v = list_categories Category_objects u
  ∧ rows ≡ₚ map_to_list Category_objects
  ∧ StronglySorted (λ a b, Category.date_created b.2 ≤ Category.date_created a.2) rows.
Proof.
  split_and!; try done.
  - apply merge_sort_Permutation.
  - apply (StronglySorted_merge_sort
             (key_ge (λ row : nat * Category.t, Category.date_created row.2))).
Qed.

(** X18.  The exercise listing is answered 200 with every stored exercise,
    each once, whoever created it, in descending order of creation time. *)
Theorem list_exercises_newest_first
    (date_created : nat * Exercise → Z) (s : Store) (u : nat * User) :
  let rows := (list_exercises date_created s u).2 in
  (list_exercises date_created s u).1 = 200%nat
  ∧ (∀ row, row ∈ rows ↔ exercises s !! row.1 = Some row.2)
  ∧ NoDup rows
  ∧ StronglySorted (λ a b, date_created b ≤ date_created a) rows.
Proof.
  split_and!; try done.
  - intros [k e]. unfold list_exercises, order_by_desc. simpl.
    rewrite merge_sort_Permutation. apply elem_of_map_to_list.
  - unfold list_exercises, order_by_desc. simpl.
    rewrite merge_sort_Permutation. apply NoDup_map_to_list.
  - apply (StronglySorted_merge_sort (key_ge date_created)).
Qed.

(** ** The statuses answered *)



End MoreProperties.

(** * The rest of the API, run on the deployment *)

Import Fixtures.

Lemma gated_unauthenticated_witness :
  gated GET_lifts = true
  ∧ @request_user auth anonymous = None
  ∧ (@api auth GET_lifts anonymous).1 = Response 401 (Detail "Unauthorized")
  ∧ store (@api auth GET_lifts anonymous).2 = store anonymous.
Proof.
  split; [reflexivity|]. split; [by vm_compute|].
  apply (@gated_unauthenticated auth GET_lifts anonymous); [reflexivity|by vm_compute].
Defined.




(** What the visit answers last: the one lift of the visitor. *)
Lemma visit_listing :
  (@api auth GET_lifts (@serve auth (take 4 visit) anonymous)).1
  = Response 200 (LiftRows [(4%nat, mkLift 3 739004 2 10 40)]).
Proof. by vm_compute. Qed.





Lemma change_password_wrong_current_unchanged_witness :
  @request_user auth ann_session = Some (1%nat, ann)
  ∧ @verify_password auth (ChangePassword.current_password wrong_change) (password ann)
    = false
  ∧ @users_change_password_post auth wrong_change ann_session
    = (Response 400 (Detail "Current password is incorrect."), ann_session).
Proof.
  split; [by vm_compute|]. split; [by vm_compute|].
  apply (@change_password_wrong_current_unchanged auth ann_session 1%nat ann wrong_change);
    by vm_compute.
Defined.

Lemma change_password_then_login_witness :
  let w' := (@users_change_password_post auth strong_change ann_session).2 in
  (@users_login_post auth
     (Login.mk (username ann) (ChangePassword.new_password strong_change)) w').1
  = Response 200 (Detail "Success.")
  ∧ (@users_login_post auth (Login.mk (username ann) "correct horse") w').1
    = Response 400 (Detail "Invalid credentials.").
Proof.
  apply (@change_password_then_login auth ann_session 1%nat ann strong_change
           "correct horse");
    [exact gym_unique_usernames|by vm_compute..].
Defined.

Lemma created_lift_listed_witness :
  @request_user auth ann_session = Some (1%nat, ann)
  ∧ (let w1 := (@lifts_post auth lift_of_squat ann_session).2 in
     ∃ pk rows rows1,
       @lifts_get auth ann_session = (Response 200 (LiftRows rows), ann_session)
       ∧ @lifts_get auth w1 = (Response 200 (LiftRows rows1), w1)
       ∧ rows1 ≡ₚ (pk, mkLift 1 739003 1 8 60) :: rows
       ∧ pk ∉ rows.*1).
Proof.
  split; [by vm_compute|].
  apply (@created_lift_listed auth ann_session (1%nat, ann) lift_of_squat
           (mkExercise "squat" 1)); by vm_compute.
Defined.

Lemma created_lift_not_listed_to_others_witness :
  let w1 := (@lifts_post auth lift_of_squat ann_session).2 in
  ∃ rows rows1,
    @lifts_get auth (mkWorld (store ann_session) (session bob_session))
    = (Response 200 (LiftRows rows), mkWorld (store ann_session) (session bob_session))
    ∧ @lifts_get auth (mkWorld (store w1) (session bob_session))
      = (Response 200 (LiftRows rows1), mkWorld (store w1) (session bob_session))
    ∧ rows1 ≡ₚ rows.
Proof.
  apply (@created_lift_not_listed_to_others auth ann_session (1%nat, ann) lift_of_squat
           (session bob_session) (2%nat, bob)); [by vm_compute|by vm_compute|simpl; lia].
Defined.

Lemma list_lifts_complete_witness :
  @request_user auth bob_session = Some (2%nat, bob)
  ∧ ∃ rows,
      @lifts_get auth bob_session = (Response 200 (LiftRows rows), bob_session)
      ∧ NoDup rows
      ∧ ∀ row, row ∈ rows ↔ lifts (store bob_session) !! row.1 = Some row.2
                              ∧ user row.2 = 2%nat.
Proof.
  split; [by vm_compute|].
  apply (@list_lifts_complete auth bob_session (2%nat, bob)). by vm_compute.
Defined.

Lemma create_exercise_stored_witness :
  @request_user auth ann_session = Some (1%nat, ann)
  ∧ (let pk := fresh (dom (exercises (store ann_session))) in
     let row := mkExercise (CreateExerciseSchema.name squat_again) 1 in
     let named (s : Store) :=
       filter (λ r : nat * Exercise, name r.2 = CreateExerciseSchema.name squat_again)
         (map_to_list (exercises s)) in
     exercises (store ann_session) !! pk = None
     ∧ @exercises_post auth squat_again ann_session
       = (Response 201 (Detail "Exercise created successfully."),
          set_store (set_exercises (insert pk row)) ann_session)
     ∧ length (named (store (@exercises_post auth squat_again ann_session).2))
       = S (length (named (store ann_session)))).
Proof.
  split; [by vm_compute|].
  apply (@create_exercise_stored auth ann_session (1%nat, ann) squat_again).
  by vm_compute.
Defined.

(** Two exercises are named "squat" after that request. *)
Lemma squat_twice :
  length (filter (λ r : nat * Exercise, name r.2 = "squat")
            (map_to_list (exercises (store (@exercises_post auth squat_again ann_session).2))))
  = 2%nat.
Proof. by vm_compute. Qed.

Lemma created_exercise_can_be_lifted_witness :
  CreateLiftSchema.exercise_id lift_of_next_exercise
  = fresh (dom (exercises (store ann_session)))
  ∧ (@lifts_post auth lift_of_next_exercise ann_session).1
    = Response 404 (Detail "Exercise not found.")
  ∧ (@lifts_post auth lift_of_next_exercise (@exercises_post auth bench ann_session).2).1
    = Response 201 (Detail "Lift created successfully.").
Proof.
  split; [by vm_compute|].
  apply (@created_exercise_can_be_lifted auth ann_session (1%nat, ann) bench
           lift_of_next_exercise); by vm_compute.
Defined.

Lemma registration_frame_witness :
  users (store anonymous) !! 2%nat = Some bob
  ∧ users (store (@users_post auth cat anonymous).2) !! 2%nat = Some bob
  ∧ permissions_of 2 (store (@users_post auth cat anonymous).2)
    = permissions_of 2 (store anonymous).
Proof.
  split; [by vm_compute|].
  apply (@registration_frame auth anonymous cat 2%nat bob). by vm_compute.
Defined.

(** The category table of the fixtures, listed: push, pull, legs. *)
Lemma category_listing :
  (list_categories category_table (1%nat, ann)).2
  = [(2%nat, Category.mk "push" 300); (3%nat, Category.mk "pull" 200);
     (1%nat, Category.mk "legs" 100)].
Proof. by vm_compute. Qed.
